(** * apache_jira_scraper.py: a shallow embedding of the resumable crawl

    The scraper walks the pages of a Jira search, fetches every issue of a
    page at the detail endpoint, appends the raw and the transformed records
    to two JSONL logs and saves a checkpoint after every page.

    The embedding keeps the shape of the source:
    - JSON documents are a tree of Python values ([JSON]); the few Python
      builtins the code relies on ([dict.get], [or], truthiness, iteration,
      [len], [str.isdigit], [int]) are written out, with the exception they
      raise on a value of the wrong type;
    - [session.get] is the environment: a server is a function from the
      number of requests issued so far and the request to a response (or to
      a raised exception), so it may answer the same request differently at
      different times;
    - the file system (two logs, one checkpoint file), the requests issued,
      the seconds slept and the depth of the call stack are a [World] that
      every statement threads through, in a state-and-exception monad;
    - the [while] loop and the recursion of [fetch_issue] take fuel.

    Real time ([throttle_sleep], timestamps), logging and the progress bar
    have no effect on what is fetched or written and are left out. JSON
    numbers are integers. *)

From Stdlib Require Import ZArith Ascii String Lia.
From stdpp Require Import base decidable countable strings list gmap sets pretty.

Local Open Scope Z_scope.

Set Warnings "-clear-no-such-hyp".

(** ** Python values *)

#[warnings="-register-all"]
Inductive JSON : Type :=
  | JNull
  | JBool (b : bool)
  | JInt (n : Z)
  | JStr (s : string)
  | JList (l : list JSON)
  | JDict (d : list (string * JSON)).

Inductive Exn : Type :=
  | AttributeError
  | TypeError
  | ValueError
  | JSONDecodeError
  | HTTPError (status : Z)
  | RequestException.

(** A Python expression either evaluates to a value or raises. *)
Inductive PyResult (A : Type) : Type :=
  | Returns (a : A)
  | Raises (e : Exn).
Arguments Returns {A} a.
Arguments Raises {A} e.

#[global] Instance PyResult_ret : MRet PyResult := @Returns.
#[global] Instance PyResult_bind : MBind PyResult := fun A B f m =>
  match m with
  | Returns a => f a
  | Raises e => Raises e
  end.

(** [bool(v)] *)
Definition truthy (v : JSON) : bool :=
  match v with
  | JNull => false
  | JBool b => b
  | JInt n => negb (n =? 0)%Z
  | JStr s => negb (String.eqb s "")
  | JList l => negb (Nat.eqb (length l) 0)
  | JDict d => negb (Nat.eqb (length d) 0)
  end.

(** [a or b] *)
Definition py_or (a b : JSON) : JSON := if truthy a then a else b.

Fixpoint dict_get (k : string) (d : list (string * JSON)) : option JSON :=
  match d with
  | [] => None
  | (k', v) :: d' => if String.eqb k k' then Some v else dict_get k d'
  end.

(** [o.get(k, dflt)]: only a dict has the method. *)
Definition py_get (o : JSON) (k : string) (dflt : JSON) : PyResult JSON :=
  match o with
  | JDict d => Returns (default dflt (dict_get k d))
  | _ => Raises AttributeError
  end.

(** [for x in o]: a list yields its elements, a dict its keys, a string its
    characters; nothing else is iterable. *)
Definition py_iter (o : JSON) : PyResult (list JSON) :=
  match o with
  | JList l => Returns l
  | JDict d => Returns (map (fun kv => JStr (fst kv)) d)
  | JStr s => Returns (map (fun c => JStr (String c EmptyString)) (list_ascii_of_string s))
  | _ => Raises TypeError
  end.

(** [len(o)] *)
Definition py_len (o : JSON) : PyResult Z :=
  match o with
  | JList l => Returns (Z.of_nat (length l))
  | JDict d => Returns (Z.of_nat (length d))
  | JStr s => Returns (Z.of_nat (String.length s))
  | _ => Raises TypeError
  end.

(** An operand of integer arithmetic or comparison: [bool] is a subclass of
    [int]. *)
Definition py_int_operand (v : JSON) : PyResult Z :=
  match v with
  | JInt n => Returns n
  | JBool b => Returns (if b then 1 else 0)
  | _ => Raises TypeError
  end.

(** [str.isdigit] on the code points below 256 (the range of a decoded HTTP
    header): the decimal digits and the superscripts two, three and one. *)
Definition is_decimal_char (c : ascii) : bool :=
  let n := nat_of_ascii c in (Nat.leb 48 n && Nat.leb n 57)%bool.

Definition is_digit_char (c : ascii) : bool :=
  let n := nat_of_ascii c in
  (is_decimal_char c || Nat.eqb n 178 || Nat.eqb n 179 || Nat.eqb n 185)%bool.

Definition isdigit (s : string) : bool :=
  (negb (String.eqb s "") && forallb is_digit_char (list_ascii_of_string s))%bool.

Definition digit_value (c : ascii) : Z := Z.of_nat (nat_of_ascii c) - 48.

(** [int(s)] for a string of digit characters: the decimal value; a
    superscript digit is no decimal digit and is refused. *)
Definition py_int (s : string) : PyResult Z :=
  let cs := list_ascii_of_string s in
  if (negb (Nat.eqb (length cs) 0) && forallb is_decimal_char cs)%bool
  then Returns (fold_left (fun acc c => 10 * acc + digit_value c) cs 0)
  else Raises ValueError.

(** ** The transform *)

(** The text of an f-string: literal pieces and formatted values. *)
Inductive Piece : Type :=
  | Lit (s : string)
  | Fmt (v : JSON).

Definition PyStr := list Piece.

(** [sep.join(ts)] *)
Fixpoint str_join (sep : string) (ts : list PyStr) : PyStr :=
  match ts with
  | [] => []
  | [t] => t
  | t :: ts' => t ++ Lit sep :: str_join sep ts'
  end.

Record Metadata := {
  issue_key : JSON;
  project : JSON;
  issuetype : JSON;
  status : JSON;
  priority : JSON;
  reporter : JSON;
  assignee : JSON;
  labels : JSON;
  created : JSON;
  updated : JSON
}.

Record SummarizationPrompt := {
  summarization_task : string;
  summarization_input : PyStr;
  summarization_output : string
}.

Record QnaPrompt := {
  qna_task : string;
  qna_context : PyStr;
  qa_pairs : list JSON
}.

Record Derived := {
  summarization : SummarizationPrompt;
  qna : QnaPrompt
}.

Record Transformed := {
  metadata : Metadata;
  title : JSON;
  description : JSON;
  comments : list PyStr;
  derived : Derived;
  raw_issue_id : JSON
}.

Definition NL : string := String (ascii_of_nat 10) EmptyString.

(** The body of [for c in comments_data]. *)
Definition comment_text (c : JSON) : PyResult PyStr :=
  a ← py_get c "author" (JDict []);
  author ← py_get a "displayName" (JStr "");
  body ← py_get c "body" (JStr "");
  created ← py_get c "created" (JStr "");
  mret [Fmt author; Lit " ("; Fmt created; Lit "): "; Fmt body].

Fixpoint comments_loop (cs : list JSON) (comments_texts : list PyStr)
  : PyResult (list PyStr) :=
  match cs with
  | [] => mret comments_texts
  | c :: cs' =>
      t ← comment_text c;
      comments_loop cs' (comments_texts ++ [t])
  end.

Definition transform_issue_for_llm (issue_raw : JSON) : PyResult Transformed :=
  fields ← py_get issue_raw "fields" (JDict []);
  comment ← py_get fields "comment" (JDict []);
  comments_data ← py_get comment "comments" (JList []);
  cs ← py_iter comments_data;
  comments_texts ← comments_loop cs [];
  d ← py_get fields "description" JNull;
  let description := py_or d (JStr "") in
  s ← py_get fields "summary" JNull;
  let title := py_or s (JStr "") in
  m_issue_key ← py_get issue_raw "key" JNull;
  m_project ← py_get fields "project" (JDict []) ≫= fun p => py_get p "key" JNull;
  m_issuetype ← py_get fields "issuetype" (JDict []) ≫= fun p => py_get p "name" JNull;
  m_status ← py_get fields "status" (JDict []) ≫= fun p => py_get p "name" JNull;
  m_priority ← py_get fields "priority" JNull ≫= fun p => py_get (py_or p (JDict [])) "name" JNull;
  m_reporter ← py_get fields "reporter" JNull ≫= fun p => py_get (py_or p (JDict [])) "displayName" JNull;
  m_assignee ← py_get fields "assignee" JNull ≫= fun p => py_get (py_or p (JDict [])) "displayName" JNull;
  m_labels ← py_get fields "labels" (JList []);
  m_created ← py_get fields "created" JNull;
  m_updated ← py_get fields "updated" JNull;
  raw_id ← py_get issue_raw "id" JNull;
  let joined := str_join NL comments_texts in
  mret {|
    metadata := {|
      issue_key := m_issue_key; project := m_project; issuetype := m_issuetype;
      status := m_status; priority := m_priority; reporter := m_reporter;
      assignee := m_assignee; labels := m_labels; created := m_created;
      updated := m_updated |};
    title := title;
    description := description;
    comments := comments_texts;
    derived := {|
      summarization := {|
        summarization_task := "summarization";
        summarization_input :=
          [Lit "Title: "; Fmt title; Lit (NL +:+ NL +:+ "Description:" +:+ NL);
           Fmt description; Lit (NL +:+ NL +:+ "Comments:" +:+ NL)] ++ joined;
        summarization_output := "" |};
      qna := {|
        qna_task := "qa";
        qna_context :=
          [Fmt title; Lit (NL +:+ NL); Fmt description; Lit (NL +:+ NL)] ++ joined;
        qa_pairs := [] |} |};
    raw_issue_id := raw_id
  |}.

(** ** The environment: server, files, trace *)

(** The values the code uses as issue keys are the hashable ones; [True] and
    [1] are the same element of a set. *)
Inductive Key : Type :=
  | KNone
  | KInt (n : Z)
  | KStr (s : string).

#[global] Instance Key_eq_dec : EqDecision Key.
Proof. solve_decision. Defined.

#[global] Instance Key_countable : Countable Key.
Proof.
  refine (inj_countable'
    (fun k => match k with
              | KNone => inl (inl tt)
              | KInt n => inl (inr n)
              | KStr s => inr s
              end)
    (fun x => match x with
              | inl (inl _) => KNone
              | inl (inr n) => KInt n
              | inr s => KStr s
              end) _).
  by intros [].
Defined.

(** [hash(v)], as [key in seen] and [seen.add(key)] need it. *)
Definition py_hashable (v : JSON) : PyResult Key :=
  match v with
  | JNull => Returns KNone
  | JBool b => Returns (KInt (if b then 1 else 0))
  | JInt n => Returns (KInt n)
  | JStr s => Returns (KStr s)
  | _ => Raises TypeError
  end.

Definition MAX_RESULTS : Z := 50.

(** The two GET requests of the program: the search of a project from an
    offset, and the detail of one issue. *)
Inductive Request : Type :=
  | SearchRequest (project_key : string) (start_at : Z) (max_results : Z)
  | IssueRequest (key : Key).

(** What the code reads of a response: [r.status_code],
    [r.headers.get("Retry-After")] and [r.json()]. *)
Record Response := {
  status_code : Z;
  retry_after : option string;
  json : PyResult JSON
}.

(** [session.get]: the answer to the [n]-th request of the run. *)
Definition Server := nat -> Request -> PyResult Response.

(** The checkpoint dict of [read_state] and [save_state]. *)
Record State := {
  startAt : Z;
  seen_issue_keys : list Key
}.

Inductive Path : Type :=
  | raw_out
  | transformed_out.

(** A record of a JSONL file: a raw issue or a transformed one. *)
Inductive Line : Type :=
  | RawLine (issue_full : JSON)
  | TransformedLine (t : Transformed).

Inductive Event : Type :=
  | EvGet (req : Request)
  | EvSleep (seconds : Z)
  | EvWriteJsonl (path : Path) (records : list Line)
  | EvSaveState (st : State).

(** The three files of one project; [None] is a file that does not exist. *)
Record Disk := {
  raw_file : option (list Line);
  transformed_file : option (list Line);
  state_file : option State
}.

Definition file (path : Path) (d : Disk) : option (list Line) :=
  match path with
  | raw_out => raw_file d
  | transformed_out => transformed_file d
  end.

(** The lines of a log; a missing file has none. *)
Definition lines (path : Path) (d : Disk) : list Line := default [] (file path d).

(** [open(path, "a" if os.path.exists(path) else "w")] and one line per
    record, in the order of [records]. *)
Definition append_records (path : Path) (records : list Line) (d : Disk) : Disk :=
  let content :=
    match file path d with
    | Some old => old ++ records
    | None => records
    end in
  match path with
  | raw_out =>
      {| raw_file := Some content; transformed_file := transformed_file d;
         state_file := state_file d |}
  | transformed_out =>
      {| raw_file := raw_file d; transformed_file := Some content;
         state_file := state_file d |}
  end.

Definition store_state (st : State) (d : Disk) : Disk :=
  {| raw_file := raw_file d; transformed_file := transformed_file d;
     state_file := Some st |}.

(** [requests_made] counts the calls of [session.get]; [stack] is the number
    of frames of [fetch_issue] that are active, [max_stack] the largest
    value it has had. *)
Record World := {
  requests_made : nat;
  trace : list Event;
  disk : Disk;
  stack : nat;
  max_stack : nat
}.

Definition log_event (e : Event) (w : World) : World :=
  {| requests_made := requests_made w; trace := trace w ++ [e];
     disk := disk w; stack := stack w; max_stack := max_stack w |}.

Definition tick (w : World) : World :=
  {| requests_made := S (requests_made w); trace := trace w;
     disk := disk w; stack := stack w; max_stack := max_stack w |}.

Definition set_disk (d : Disk) (w : World) : World :=
  {| requests_made := requests_made w; trace := trace w;
     disk := d; stack := stack w; max_stack := max_stack w |}.

Definition push_frame (w : World) : World :=
  {| requests_made := requests_made w; trace := trace w;
     disk := disk w; stack := S (stack w);
     max_stack := Nat.max (max_stack w) (S (stack w)) |}.

Definition pop_frame (w : World) : World :=
  {| requests_made := requests_made w; trace := trace w;
     disk := disk w; stack := Nat.pred (stack w);
     max_stack := max_stack w |}.

(** ** The monad of statements *)

Inductive Res (A : Type) : Type :=
  | Ok (a : A) (w : World)
  | Exc (e : Exn) (w : World)
  | OutOfFuel (w : World).
Arguments Ok {A} a w.
Arguments Exc {A} e w.
Arguments OutOfFuel {A} w.

Definition M (A : Type) : Type := World -> Res A.

#[global] Instance M_ret : MRet M := fun A a w => Ok a w.
#[global] Instance M_bind : MBind M := fun A B f m w =>
  match m w with
  | Ok a w' => f a w'
  | Exc e w' => Exc e w'
  | OutOfFuel w' => OutOfFuel w'
  end.

Definition final {A} (r : Res A) : World :=
  match r with
  | Ok _ w | Exc _ w | OutOfFuel w => w
  end.

(** An expression evaluated inside a statement. *)
Definition py {A} (r : PyResult A) : M A := fun w =>
  match r with
  | Returns a => Ok a w
  | Raises e => Exc e w
  end.

Definition out_of_fuel {A} : M A := fun w => OutOfFuel w.

(** [try: m / except Exception: ...] *)
Definition try_except {A} (m : M A) : M (option A) := fun w =>
  match m w with
  | Ok a w' => Ok (Some a) w'
  | Exc _ w' => Ok None w'
  | OutOfFuel w' => OutOfFuel w'
  end.

(** A call of [fetch_issue]: a frame is pushed on entry and popped when the
    call returns or raises. *)
Definition call {A} (m : M A) : M A := fun w =>
  match m (push_frame w) with
  | Ok a w' => Ok a (pop_frame w')
  | Exc e w' => Exc e (pop_frame w')
  | OutOfFuel w' => OutOfFuel w'
  end.

Section Program.
Variable session : Server.

Definition session_get (req : Request) : M Response := fun w =>
  py (session (requests_made w) req) (tick (log_event (EvGet req) w)).

Definition time_sleep (seconds : Z) : M unit := fun w =>
  Ok tt (log_event (EvSleep seconds) w).

(** [r.raise_for_status()] *)
Definition raise_for_status (r : Response) : M unit :=
  if ((400 <=? status_code r) && (status_code r <? 600))%bool
  then py (Raises (HTTPError (status_code r)))
  else mret tt.

Definition default_state : State := {| startAt := 0; seen_issue_keys := [] |}.

Definition read_state : M State := fun w =>
  Ok (default default_state (state_file (disk w))) w.

Definition save_state (st : State) : M unit := fun w =>
  Ok tt (set_disk (store_state st (disk w)) (log_event (EvSaveState st) w)).

Definition write_jsonl (path : Path) (records : list Line) : M unit := fun w =>
  Ok tt (set_disk (append_records path records (disk w))
           (log_event (EvWriteJsonl path records) w)).

(** [int(ra) if ra and ra.isdigit() else 60] *)
Definition retry_after_wait (ra : option string) : PyResult Z :=
  match ra with
  | Some s => if (negb (String.eqb s "") && isdigit s)%bool then py_int s else Returns 60
  | None => Returns 60
  end.

Fixpoint fetch_issue (fuel : nat) (key : Key) : M JSON :=
  match fuel with
  | O => out_of_fuel
  | S fuel' =>
      call (
        r ← session_get (IssueRequest key);
        if decide (status_code r = 429) then
          wait ← py (retry_after_wait (retry_after r));
          _ ← time_sleep wait;
          fetch_issue fuel' key
        else
          _ ← raise_for_status r;
          py (json r))
  end.

(** The [for it in issues] loop; the locals it updates are passed along. *)
Fixpoint for_issues (fuel : nat) (issues : list JSON) (seen : gset Key)
    (raw_batch transformed_batch : list Line)
  : M (gset Key * list Line * list Line) :=
  match issues with
  | [] => mret (seen, raw_batch, transformed_batch)
  | it :: rest =>
      k ← py (py_get it "key" JNull);
      key ← py (py_hashable k);
      if decide (key ∈ seen) then
        for_issues fuel rest seen raw_batch transformed_batch
      else
        fetched ← try_except (fetch_issue fuel key);
        match fetched with
        | None => for_issues fuel rest seen raw_batch transformed_batch
        | Some issue_full =>
            t ← py (transform_issue_for_llm issue_full);
            for_issues fuel rest ({[key]} ∪ seen)
              (raw_batch ++ [RawLine issue_full])
              (transformed_batch ++ [TransformedLine t])
        end
  end.

(** How one pass through the body of [while more_to_fetch] ends: by
    [break], or at its end (or a [continue]) with the locals as they are
    then. *)
Inductive Ctl : Type :=
  | Break
  | Next (start_at : Z) (seen : gset Key) (more_to_fetch : bool).

(** The body of [while more_to_fetch]. The [total] read for the progress bar
    is left out; the one read by the test that ends the loop is there. *)
Definition loop_body (fuel : nat) (project_key : string) (start_at : Z)
    (seen : gset Key) : M Ctl :=
  r ← session_get (SearchRequest project_key start_at MAX_RESULTS);
  if decide (status_code r = 429) then
    wait ← py (retry_after_wait (retry_after r));
    _ ← time_sleep wait;
    mret (Next start_at seen true)
  else if decide (500 <= status_code r) then
    _ ← time_sleep 10;
    mret (Next start_at seen true)
  else
    _ ← raise_for_status r;
    resp ← py (json r);
    issues ← py (py_get resp "issues" (JList []));
    if negb (truthy issues) then mret Break
    else
      its ← py (py_iter issues);
      '(seen', raw_batch, transformed_batch) ← for_issues fuel its seen [] [];
      _ ← (if negb (Nat.eqb (length raw_batch) 0) then
             _ ← write_jsonl raw_out raw_batch;
             write_jsonl transformed_out transformed_batch
           else mret tt);
      base ← py (py_get resp "startAt" (JInt start_at) ≫= py_int_operand);
      n ← py (py_len issues);
      let start_at' := base + n in
      _ ← save_state {| startAt := start_at'; seen_issue_keys := elements seen' |};
      total ← py (py_get resp "total" (JInt start_at') ≫= py_int_operand);
      mret (Next start_at' seen' (negb (total <=? start_at'))).

Fixpoint scrape_loop (fuel : nat) (project_key : string) (start_at : Z)
    (seen : gset Key) : M (Z * gset Key) :=
  match fuel with
  | O => out_of_fuel
  | S fuel' =>
      c ← loop_body fuel' project_key start_at seen;
      match c with
      | Break => mret (start_at, seen)
      | Next start_at' seen' true => scrape_loop fuel' project_key start_at' seen'
      | Next start_at' seen' false => mret (start_at', seen')
      end
  end.

(** [scrape_project]; the value returned is the final [startAt] and [seen]
    of the run (the Python function returns nothing). *)
Definition scrape_project (fuel : nat) (project_key : string) : M (Z * gset Key) :=
  state ← read_state;
  scrape_loop fuel project_key (startAt state) (list_to_set (seen_issue_keys state)).

End Program.

(** ** Vocabulary of the statements *)

#[global] Instance Path_eq_dec : EqDecision Path.
Proof. solve_decision. Defined.

(** The effect of an event on the files. *)
Definition replay (d : Disk) (e : Event) : Disk :=
  match e with
  | EvWriteJsonl path records => append_records path records d
  | EvSaveState st => store_state st d
  | _ => d
  end.

(** [w'] is [w] after the events [evs]: they are the new end of the trace and
    the files are what the events make of them. *)
Definition evolves (w : World) (evs : list Event) (w' : World) : Prop :=
  trace w' = trace w ++ evs /\ disk w' = foldl replay (disk w) evs.

(** Requests and sleeps: the events that touch no file. *)
Definition network (e : Event) : Prop :=
  match e with
  | EvGet _ | EvSleep _ => True
  | _ => False
  end.

(** The events of one call of [fetch_issue]: requests for its key and
    sleeps. *)
Definition detail_events (key : Key) (evs : list Event) : Prop :=
  Forall (fun e => e = EvGet (IssueRequest key) \/ exists s, e = EvSleep s) evs.

(** The records written to a log, in the order written. *)
Definition written (path : Path) (evs : list Event) : list Line :=
  flat_map (fun e =>
    match e with
    | EvWriteJsonl p records => if decide (p = path) then records else []
    | _ => []
    end) evs.

(** The checkpoints saved, in the order saved. *)
Definition saved (evs : list Event) : list State :=
  omap (fun e => match e with EvSaveState st => Some st | _ => None end) evs.

(** The keys asked for at the detail endpoint, the offsets asked for at the
    search endpoint. *)
Definition detail_requests (evs : list Event) : list Key :=
  omap (fun e => match e with EvGet (IssueRequest k) => Some k | _ => None end) evs.

Definition search_requests (evs : list Event) : list Z :=
  omap (fun e => match e with EvGet (SearchRequest _ c _) => Some c | _ => None end) evs.

Definition sleeps (evs : list Event) : list Z :=
  omap (fun e => match e with EvSleep s => Some s | _ => None end) evs.

(** The identifier of a record of a log: its ["key"], when it has one that
    can be a set element. *)
Definition record_key (l : Line) : option Key :=
  match l with
  | RawLine j =>
      match py_get j "key" JNull ≫= py_hashable with
      | Returns k => Some k
      | Raises _ => None
      end
  | TransformedLine t =>
      match py_hashable (issue_key (metadata t)) with
      | Returns k => Some k
      | Raises _ => None
      end
  end.

Definition log_keys (ls : list Line) : list Key := omap record_key ls.

(** The [i]-th transformed record is the transform of the [i]-th raw one. *)
Definition transformed_of (raw tr : Line) : Prop :=
  exists j t, raw = RawLine j /\ tr = TransformedLine t /\
    transform_issue_for_llm j = Returns t.

(** The [seen] set a run starts from. *)
Definition loaded_state (w : World) : State :=
  default default_state (state_file (disk w)).

Definition loaded_seen (w : World) : gset Key :=
  list_to_set (seen_issue_keys (loaded_state w)).

(** The detail endpoint answers a request for [k] with the record of [k]. *)
Definition detail_faithful (session : Server) : Prop :=
  forall n k r j,
    session n (IssueRequest k) = Returns r -> json r = Returns j ->
    record_key (RawLine j) = Some k.


Definition ceil_div (a b : Z) : Z := (a + b - 1) / b.

(** The search request of a project at an offset. *)
Definition search (project_key : string) (start_at : Z) : Request :=
  SearchRequest project_key start_at MAX_RESULTS.

(** The events that end a page: the two appends when the raw batch is not
    empty, and the save of the checkpoint when it is reached. *)
Definition page_writes (raw_batch transformed_batch : list Line) : list Event :=
  if negb (Nat.eqb (length raw_batch) 0)
  then [EvWriteJsonl raw_out raw_batch; EvWriteJsonl transformed_out transformed_batch]
  else [].

Definition save_events (sv : option State) : list Event :=
  match sv with
  | Some st => [EvSaveState st]
  | None => []
  end.

(** The offset a search response reports: its ["startAt"], or the offset
    asked for when it has none. *)
Definition reported_offset (resp : JSON) (start_at : Z) : PyResult Z :=
  py_get resp "startAt" (JInt start_at) ≫= py_int_operand.

(** The total a search response reports, as the test that ends the loop
    reads it. *)
Definition reported_total (resp : JSON) (start_at : Z) : PyResult Z :=
  py_get resp "total" (JInt start_at) ≫= py_int_operand.

(** What one pass through the loop body leaves in the trace after its search
    request (the [n]-th request of the run, at offset [start_at]): requests
    for details of keys not in [seen] and sleeps ([net]), then the page's
    appends ([nr] and [nt], the raw and the transformed batch), then at most
    one save ([sv]) of the offset after the page and of the keys seen then
    ([seen']). *)
Definition pass_shape (session : Server) (project_key : string) (n : nat)
    (start_at : Z) (seen : gset Key) (net : list Event) (nr nt : list Line)
    (seen' : gset Key) (sv : option State) : Prop :=
  Forall network net /\
  search_requests net = [] /\
  (forall k, k ∈ detail_requests net -> k ∉ seen) /\
  Forall2 transformed_of nr nt /\
  seen ⊆ seen' /\
  (detail_faithful session ->
     NoDup (log_keys nr) /\
     (forall k, k ∈ seen' <-> k ∈ seen \/ k ∈ log_keys nr) /\
     (forall k, k ∈ log_keys nr -> k ∉ seen)) /\
  (forall st, sv = Some st ->
     seen_issue_keys st = elements seen' /\
     exists r resp issues base len,
       session n (search project_key start_at) = Returns r /\
       status_code r <> 429 /\ status_code r < 400 /\
       json r = Returns resp /\
       py_get resp "issues" (JList []) = Returns issues /\
       truthy issues = true /\
       reported_offset resp start_at = Returns base /\
       py_len issues = Returns len /\
       startAt st = base + len).

(** How a pass that returns ends: [break] on an empty page; a retry of the
    same offset after a 429 or a 5xx; or the locals that were saved. *)
Definition pass_result (session : Server) (project_key : string) (n : nat)
    (start_at : Z) (seen : gset Key) (net : list Event) (nr : list Line)
    (seen' : gset Key) (sv : option State) (ctl : Ctl) : Prop :=
  match ctl with
  | Break =>
      sv = None /\ nr = [] /\ net = [] /\
      exists r resp issues,
        session n (search project_key start_at) = Returns r /\
        json r = Returns resp /\
        py_get resp "issues" (JList []) = Returns issues /\
        truthy issues = false
  | Next c' s'' more =>
      match sv with
      | None =>
          c' = start_at /\ s'' = seen /\ nr = [] /\ more = true /\
          exists r,
            session n (search project_key start_at) = Returns r /\
            (status_code r = 429 \/ 500 <= status_code r)
      | Some st =>
          c' = startAt st /\ s'' = seen' /\
          exists r resp total,
            session n (search project_key start_at) = Returns r /\
            json r = Returns resp /\
            reported_total resp c' = Returns total /\
            more = negb (total <=? c')
      end
  end.

Definition body_shape (session : Server) (project_key : string) (start_at : Z)
    (seen : gset Key) (w : World) (R : Res Ctl) : Prop :=
  exists net nr nt seen' sv,
    evolves w
      (EvGet (search project_key start_at) :: net ++ page_writes nr nt ++ save_events sv)
      (final R) /\
    pass_shape session project_key (requests_made w) start_at seen net nr nt seen' sv /\
    (forall ctl w', R = Ok ctl w' ->
       pass_result session project_key (requests_made w) start_at seen net nr seen' sv ctl).

(** The trace of a run of the loop from offset [c] with the set [seen]: a
    sequence of passes, each from the locals the one before it left; a pass
    that wrote its batch and did not reach the save is the last one. *)
Inductive run_shape (session : Server) (project_key : string)
  : Z -> gset Key -> list Event -> Prop :=
  | run_stop c seen : run_shape session project_key c seen []
  | run_pass n c seen net nr nt seen' sv evs :
      pass_shape session project_key n c seen net nr nt seen' sv ->
      (sv = None -> nr = [] \/ evs = []) ->
      run_shape session project_key
        (match sv with Some st => startAt st | None => c end)
        (match sv with Some _ => seen' | None => seen end) evs ->
      run_shape session project_key c seen
        (EvGet (search project_key c) :: net ++ page_writes nr nt ++ save_events sv ++ evs).


(** The [seen] set of a checkpoint. *)
Definition seen_of (st : State) : gset Key := list_to_set (seen_issue_keys st).

(** Every checkpoint of the list is related to the next one. *)
Fixpoint chain (R : State -> State -> Prop) (st : State) (sts : list State) : Prop :=
  match sts with
  | [] => True
  | st' :: sts' => R st st' /\ chain R st' sts'
  end.

(** The search endpoint never reports an offset below the one asked for. *)
Definition offsets_echoed (session : Server) : Prop :=
  forall n pk c m r resp base,
    session n (SearchRequest pk c m) = Returns r -> json r = Returns resp ->
    reported_offset resp c = Returns base -> c <= base.

(** ** Servers and worlds used as concrete inputs *)

(** A first run: no file exists, nothing has been requested. *)
Definition fresh_world : World :=
  {| requests_made := 0; trace := [];
     disk := {| raw_file := None; transformed_file := None; state_file := None |};
     stack := 0; max_stack := 0 |}.

(** A run that resumes from a checkpoint. *)
Definition resumed_world (st : State) : World :=
  {| requests_made := 0; trace := [];
     disk := {| raw_file := None; transformed_file := None; state_file := Some st |};
     stack := 0; max_stack := 0 |}.

Definition ok_response (body : JSON) : PyResult Response :=
  Returns {| status_code := 200; retry_after := None; json := Returns body |}.

Definition rate_limited (ra : option string) : PyResult Response :=
  Returns {| status_code := 429; retry_after := ra; json := Raises JSONDecodeError |}.

Definition key_json (k : Key) : JSON :=
  match k with
  | KNone => JNull
  | KInt n => JInt n
  | KStr s => JStr s
  end.

(** The summary of an issue in a search page, and its detail record. *)
Definition summary (k : string) : JSON := JDict [("key", JStr k)].

Definition detail (k : Key) : JSON :=
  JDict [("key", key_json k);
         ("fields", JDict [("summary", JStr "A summary");
                           ("comment", JDict [("comments", JList [])])])].

Definition page (items : list JSON) (P : nat) (c : Z) : list JSON :=
  take P (drop (Z.to_nat c) items).

Definition search_body (items : list JSON) (P : nat) (c : Z) : JSON :=
  JDict [("startAt", JInt c); ("maxResults", JInt (Z.of_nat P));
         ("total", JInt (Z.of_nat (length items)));
         ("issues", JList (page items P c))].

(** A server that holds [items], serves them in pages of [P] and has a
    detail record for every key. *)
Definition jira (items : list JSON) (P : nat) : Server := fun _ req =>
  match req with
  | SearchRequest _ c _ => ok_response (search_body items P c)
  | IssueRequest k => ok_response (detail k)
  end.

(** A server whose second page reports the offset 0 instead of the offset
    asked for. *)
Definition stale_offset : Server := fun _ req =>
  match req with
  | SearchRequest _ c _ =>
      if (c =? 0) then
        ok_response (JDict [("startAt", JInt 0); ("total", JInt 5);
                            ("issues", JList [summary "HADOOP-1"; summary "HADOOP-2"])])
      else if (c =? 2) then
        ok_response (JDict [("startAt", JInt 0); ("total", JInt 5);
                            ("issues", JList [summary "HADOOP-3"])])
      else ok_response (JDict [("total", JInt 5); ("issues", JList [])])
  | IssueRequest k => ok_response (detail k)
  end.

Definition three_issues : list JSON :=
  [summary "HADOOP-1"; summary "HADOOP-2"; summary "HADOOP-3"].

(** The search endpoint of a project holds [items], reports their number as
    the total, echoes the offset asked for and serves the [P] items from
    that offset on. *)
Definition serves (session : Server) (project_key : string) (items : list JSON)
    (P : nat) : Prop :=
  forall n c, exists r resp,
    session n (search project_key c) = Returns r /\
    status_code r = 200 /\
    json r = Returns resp /\
    py_get resp "issues" (JList []) = Returns (JList (page items P c)) /\
    reported_offset resp c = Returns c /\
    forall c', reported_total resp c' = Returns (Z.of_nat (length items)).

(** The detail endpoint never answers 429, and the records it returns are
    records the transform accepts. *)
Definition details_served (session : Server) : Prop :=
  forall n k r, session n (IssueRequest k) = Returns r ->
    status_code r <> 429 /\
    forall j, json r = Returns j -> exists t, transform_issue_for_llm j = Returns t.

(** A summary is an object whose key can be a set element. *)
Definition keyed (it : JSON) : Prop :=
  exists k, py_get it "key" JNull ≫= py_hashable = Returns k.

(** The checkpoint of a run that has fetched the three issues. *)
Definition done_checkpoint : State :=
  {| startAt := 3; seen_issue_keys := [KStr "HADOOP-1"; KStr "HADOOP-2"; KStr "HADOOP-3"] |}.



(** A server that answers the first [n] requests of a run with 429, without
    a [Retry-After] header, and serves the later ones: a search finds no
    issue, an issue has its detail record. *)
Definition throttled (n : nat) : Server := fun m req =>
  if (m <? n)%nat then rate_limited None
  else
    match req with
    | SearchRequest _ _ _ => ok_response (JDict [("total", JInt 0); ("issues", JList [])])
    | IssueRequest k => ok_response (detail k)
    end.

(** [n] rounds of request and sleep. *)
Fixpoint retries (req : Request) (seconds : Z) (n : nat) : list Event :=
  match n with
  | O => []
  | S n' => EvGet req :: EvSleep seconds :: retries req seconds n'
  end.

(** ** The shape of a raw issue record *)

(** The value of a field of the record: [issue_raw["fields"][k]], when both
    keys are there. *)
Definition field (issue_raw : JSON) (k : string) : option JSON :=
  match issue_raw with
  | JDict d =>
      match dict_get "fields" d with
      | Some (JDict f) => dict_get k f
      | _ => None
      end
  | _ => None
  end.

Definition is_object (v : JSON) : Prop :=
  match v with
  | JDict _ => True
  | _ => False
  end.

Definition null_or_object (v : JSON) : Prop :=
  match v with
  | JNull | JDict _ => True
  | _ => False
  end.

(** A key of a dict is missing, or its value has the property. *)
Definition missing_or (P : JSON -> Prop) (o : option JSON) : Prop :=
  match o with
  | None => True
  | Some v => P v
  end.

(** A comment is an object whose author, when it has one, is an object. *)
Definition comment_shaped (c : JSON) : Prop :=
  match c with
  | JDict d => missing_or is_object (dict_get "author" d)
  | _ => False
  end.

(** The comment field is an object whose comments, when it has them, are a
    list of comments. *)
Definition comment_field_shaped (v : JSON) : Prop :=
  match v with
  | JDict cm =>
      missing_or (fun cs =>
        match cs with
        | JList l => Forall comment_shaped l
        | _ => False
        end) (dict_get "comments" cm)
  | _ => False
  end.

(** The records the transform is written for: an object whose [fields],
    when present, is an object in which [comment], [project], [issuetype]
    and [status], when present, are objects and [priority], [reporter] and
    [assignee], when present, are objects or null. Every key may be
    missing. *)
Definition well_shaped (issue_raw : JSON) : Prop :=
  match issue_raw with
  | JDict d =>
      missing_or is_object (dict_get "fields" d) /\
      missing_or comment_field_shaped (field issue_raw "comment") /\
      missing_or is_object (field issue_raw "project") /\
      missing_or is_object (field issue_raw "issuetype") /\
      missing_or is_object (field issue_raw "status") /\
      missing_or null_or_object (field issue_raw "priority") /\
      missing_or null_or_object (field issue_raw "reporter") /\
      missing_or null_or_object (field issue_raw "assignee")
  | _ => False
  end.

(** A field is missing from the record, or null. *)
Definition missing_or_null (o : option JSON) : Prop := o = None \/ o = Some JNull.

(** A record whose status is null. *)
Definition null_status_issue : JSON :=
  JDict [("key", JStr "HADOOP-1"); ("fields", JDict [("status", JNull)])].

(** ** The checkpoint file, chunk by chunk

    [save_state] opens the file for writing, which empties it, and
    [json.dump] then writes the text of the state one chunk at a time. The
    run-level [store_state] is the file once all of it is written. (A key
    that was [True] or [False] is kept as the integer it equals.) *)

Definition DQ : string := String (ascii_of_nat 34) EmptyString.
Definition BS : string := String (ascii_of_nat 92) EmptyString.

Definition hex_digit (n : nat) : ascii :=
  ascii_of_nat (if (n <? 10)%nat then 48 + n else 87 + n).

(** One character of a JSON string, with [ensure_ascii]. *)
Definition escape_char (c : ascii) : string :=
  let n := nat_of_ascii c in
  if (n =? 34)%nat then BS +:+ DQ
  else if (n =? 92)%nat then BS +:+ BS
  else if (n =? 8)%nat then BS +:+ "b"
  else if (n =? 12)%nat then BS +:+ "f"
  else if (n =? 10)%nat then BS +:+ "n"
  else if (n =? 13)%nat then BS +:+ "r"
  else if (n =? 9)%nat then BS +:+ "t"
  else if ((32 <=? n) && (n <=? 126))%nat%bool then String c EmptyString
  else BS +:+ "u00" +:+ String (hex_digit (n / 16)) (String (hex_digit (n mod 16)) EmptyString).

Definition encode_string (s : string) : string :=
  DQ +:+ String.concat "" (map escape_char (list_ascii_of_string s)) +:+ DQ.

Definition encode_key (k : Key) : string :=
  match k with
  | KNone => "null"
  | KInt n => pretty n
  | KStr s => encode_string s
  end.

(** The chunks of a list at indent level 1: ["[]"] when it is empty. *)
Definition list_chunks (ks : list Key) : list string :=
  match ks with
  | [] => ["[]"]
  | k :: ks' =>
      ("[" +:+ NL +:+ "    " +:+ encode_key k)
        :: map (fun k' => "," +:+ NL +:+ "    " +:+ encode_key k') ks'
        ++ [NL +:+ "  "; "]"]
  end.

(** The chunks [json.dump(state, f, indent=2)] writes. *)
Definition state_chunks (st : State) : list string :=
  ["{"; NL +:+ "  "; DQ +:+ "startAt" +:+ DQ; ": "; pretty (startAt st);
   "," +:+ NL +:+ "  "; DQ +:+ "seen_issue_keys" +:+ DQ; ": "]
  ++ list_chunks (seen_issue_keys st) ++ [NL; "}"].

Definition json_dump (st : State) : string := String.concat "" (state_chunks st).

Inductive FileOp : Type :=
  | OpenForWriting
  | WriteChunk (chunk : string).

(** The content of a file after an operation; [None] is no file. *)
Definition apply_op (content : option string) (op : FileOp) : option string :=
  match op with
  | OpenForWriting => Some ""
  | WriteChunk chunk => Some (default "" content +:+ chunk)
  end.

Definition save_state_ops (st : State) : list FileOp :=
  OpenForWriting :: map WriteChunk (state_chunks st).

(** The checkpoint file when the process dies after [k] operations of the
    save. *)
Definition file_after (k : nat) (st : State) (before : option string) : option string :=
  foldl apply_op before (take k (save_state_ops st)).

(** The first page of a project is persisted, the second one is being
    saved. *)
Definition first_checkpoint : State :=
  {| startAt := 50; seen_issue_keys := [KStr "HADOOP-1"] |}.

Definition second_checkpoint : State :=
  {| startAt := 100; seen_issue_keys := [KStr "HADOOP-1"; KStr "HADOOP-51"] |}.

(** ** Vocabulary of the further properties *)






(** The detail endpoint fails every request: the call raises, or the status
    is an error other than 429, or the body is no JSON. *)
Definition details_fail (session : Server) : Prop :=
  forall n k,
    match session n (IssueRequest k) with
    | Returns r =>
        status_code r <> 429 /\
        (400 <= status_code r < 600 \/ exists e, json r = Raises e)
    | Raises _ => True
    end.

(** A server with three issues whose detail endpoint answers 404. *)
Definition jira_without_details : Server := fun _ req =>
  match req with
  | SearchRequest _ c _ => ok_response (search_body three_issues 50 c)
  | IssueRequest _ =>
      Returns {| status_code := 404; retry_after := None; json := Raises JSONDecodeError |}
  end.

(** A server with three issues whose detail records have a null status. *)
Definition jira_with_null_status : Server := fun _ req =>
  match req with
  | SearchRequest _ c _ => ok_response (search_body three_issues 50 c)
  | IssueRequest _ => ok_response null_status_issue
  end.


(** A server that answers every request with 403. *)
Definition forbidden : Server := fun _ _ =>
  Returns {| status_code := 403; retry_after := None; json := Raises JSONDecodeError |}.

(** Every search request of the trace is for the project, with the page
    size of the program, at the cursor of the checkpoint on disk at that
    moment ([c] at the start, the cursor last saved after that). *)
Fixpoint asks_at_checkpoint (project_key : string) (c : Z) (evs : list Event) : Prop :=
  match evs with
  | [] => True
  | EvGet (SearchRequest p c' m) :: evs' =>
      p = project_key /\ c' = c /\ m = MAX_RESULTS /\
      asks_at_checkpoint project_key c evs'
  | EvSaveState st :: evs' => asks_at_checkpoint project_key (startAt st) evs'
  | _ :: evs' => asks_at_checkpoint project_key c evs'
  end.

(** An event that is neither a search request nor a save. *)
Definition quiet (e : Event) : Prop :=
  match e with
  | EvGet (SearchRequest _ _ _) | EvSaveState _ => False
  | _ => True
  end.

(** The other log of the project. *)
Definition other_log (path : Path) : Path :=
  match path with
  | raw_out => transformed_out
  | transformed_out => raw_out
  end.

(** A record with two comments, the second without author and date. *)
Definition two_comments_issue : JSON :=
  JDict [("key", JStr "HADOOP-1");
         ("fields", JDict [("comment", JDict [("comments", JList [
            JDict [("author", JDict [("displayName", JStr "Ann")]);
                   ("body", JStr "first"); ("created", JStr "2020-01-01")];
            JDict [("body", JStr "second")]])])])].


(** ** The projects of a run of [main]

    Each project has its own three files; [main] scrapes the projects one
    after the other and catches what a project raises. *)

Definition PROJECTS : list string := ["HADOOP"; "SPARK"; "KAFKA"].

Definition no_file : Disk :=
  {| raw_file := None; transformed_file := None; state_file := None |}.

(** The machine [main] runs on: the requests, the trace and the stack of
    the process ([process], whose own [disk] is not looked at), and the
    files of every project. *)
Record Machine := {
  process : World;
  disks : gmap string Disk
}.

Definition disk_of (project_key : string) (m : Machine) : Disk :=
  default no_file (disks m !! project_key).

(** The world [scrape_project] sees for a project, and the machine after
    its run. *)
Definition enter (project_key : string) (m : Machine) : World :=
  set_disk (disk_of project_key m) (process m).

Definition leave (project_key : string) (w : World) (m : Machine) : Machine :=
  {| process := w; disks := <[project_key := disk w]> (disks m) |}.

(** [main] returns, or a project never ends. *)
Inductive MainResult : Type :=
  | Finished (m : Machine)
  | Unfinished (m : Machine).

Definition machine_of (R : MainResult) : Machine :=
  match R with
  | Finished m | Unfinished m => m
  end.

(** [for proj in projects: try: scrape_project(proj) / except Exception] *)
Fixpoint main_loop (session : Server) (fuel : nat) (projects : list string)
    (m : Machine) : MainResult :=
  match projects with
  | [] => Finished m
  | proj :: rest =>
      match scrape_project session fuel proj (enter proj m) with
      | Ok _ w' | Exc _ w' => main_loop session fuel rest (leave proj w' m)
      | OutOfFuel w' => Unfinished (leave proj w' m)
      end
  end.

Definition main (session : Server) (fuel : nat) (m : Machine) : MainResult :=
  main_loop session fuel PROJECTS m.

(** The trace visits the projects in order: for each one, the search
    request at the cursor of its checkpoint in [m], then the other events
    of its run. *)
Fixpoint visits (m : Machine) (projects : list string) (evs : list Event) : Prop :=
  match projects with
  | [] => evs = []
  | proj :: rest =>
      exists run later,
        evs = EvGet (search proj (startAt (default default_state
                                             (state_file (disk_of proj m)))))
                :: run ++ later /\
        visits m rest later
  end.

(** A machine on which nothing has run. *)
Definition fresh_machine : Machine := {| process := fresh_world; disks := ∅ |}.

(** ** How a world evolves *)

Arguments record_key : simpl never.

Lemma evolves_refl w : evolves w [] w.
Proof. split; [by rewrite app_nil_r | done]. Qed.

Lemma evolves_trans w1 evs1 w2 evs2 w3 :
  evolves w1 evs1 w2 -> evolves w2 evs2 w3 -> evolves w1 (evs1 ++ evs2) w3.
Proof.
  intros [Ht1 Hd1] [Ht2 Hd2]. split.
  - by rewrite Ht2, Ht1, app_assoc.
  - by rewrite Hd2, Hd1, foldl_app.
Qed.

Lemma evolves_same w w' v v' evs :
  trace v = trace w -> disk v = disk w ->
  trace v' = trace w' -> disk v' = disk w' ->
  evolves w evs w' -> evolves v evs v'.
Proof. intros Ht Hd Ht' Hd' [??]. split; congruence. Qed.

Lemma evolves_log e w :
  network e -> evolves w [e] (log_event e w).
Proof. intros He. split; [done|]. by destruct e. Qed.

Lemma network_replay d evs : Forall network evs -> foldl replay d evs = d.
Proof.
  intros H. revert d. induction H as [|e evs He _ IH]; intros d; [done|].
  simpl. rewrite <- (IH d). by destruct e.
Qed.

Lemma evolves_network_disk w evs w' :
  evolves w evs w' -> Forall network evs -> disk w' = disk w.
Proof. intros [_ ->] H. by apply network_replay. Qed.

Lemma written_app path evs1 evs2 :
  written path (evs1 ++ evs2) = written path evs1 ++ written path evs2.
Proof. unfold written. by rewrite flat_map_app. Qed.

Lemma saved_app evs1 evs2 : saved (evs1 ++ evs2) = saved evs1 ++ saved evs2.
Proof. apply omap_app. Qed.

Lemma detail_requests_app evs1 evs2 :
  detail_requests (evs1 ++ evs2) = detail_requests evs1 ++ detail_requests evs2.
Proof. apply omap_app. Qed.

Lemma search_requests_app evs1 evs2 :
  search_requests (evs1 ++ evs2) = search_requests evs1 ++ search_requests evs2.
Proof. apply omap_app. Qed.

Lemma network_written path evs : Forall network evs -> written path evs = [].
Proof.
  induction 1 as [|e evs He _ IH]; [done|].
  simpl. rewrite IH. by destruct e.
Qed.

Lemma network_saved evs : Forall network evs -> saved evs = [].
Proof.
  induction 1 as [|e evs He _ IH]; [done|].
  simpl. rewrite IH. by destruct e.
Qed.

(** ** The detail fetch *)

Lemma detail_events_network key evs : detail_events key evs -> Forall network evs.
Proof.
  intros H. eapply Forall_impl; [exact H|].
  intros e [->|[s ->]]; exact I.
Qed.

Lemma detail_events_requests key evs k :
  detail_events key evs -> k ∈ detail_requests evs -> k = key.
Proof.
  induction 1 as [|e evs He _ IH]; simpl; [by intros ?%elem_of_nil|].
  destruct He as [->|[s ->]]; simpl; [|done].
  intros [->|?]%elem_of_cons; auto.
Qed.

Lemma detail_events_search key evs :
  detail_events key evs -> search_requests evs = [].
Proof.
  induction 1 as [|e evs He _ IH]; [done|].
  by destruct He as [->|[s ->]].
Qed.

Ltac detail_events_tac :=
  repeat (constructor; [first [by left | by right; eexists]|]); constructor.

Lemma fetch_issue_spec session fuel key w :
  exists evs,
    evolves w evs (final (fetch_issue session fuel key w)) /\
    detail_events key evs /\
    (detail_faithful session -> forall j w',
       fetch_issue session fuel key w = Ok j w' -> record_key (RawLine j) = Some key).
Proof.
  revert w. induction fuel as [|fuel IH]; intros w.
  { exists []. split; [apply evolves_refl|]. split; [constructor|done]. }
  simpl. unfold call, mbind, M_bind, session_get, py. simpl.
  destruct (session (requests_made w) (IssueRequest key)) as [r|e] eqn:Hs; simpl.
  2:{ exists [EvGet (IssueRequest key)]. split; [by split|].
      split; [detail_events_tac|done]. }
  destruct (decide (status_code r = 429)) as [H429|H429].
  - destruct (retry_after_wait (retry_after r)) as [wait|e]; simpl.
    2:{ exists [EvGet (IssueRequest key)]. split; [by split|].
        split; [detail_events_tac|done]. }
    unfold time_sleep.
    set (w2 := log_event _ (tick _)).
    destruct (IH w2) as (evs & Hev & Hdet & Hkey).
    exists ([EvGet (IssueRequest key); EvSleep wait] ++ evs).
    split; [|split].
    + assert (evolves w [EvGet (IssueRequest key); EvSleep wait] w2) as H0.
      { split; [|done]. subst w2. simpl. by rewrite <- app_assoc. }
      destruct (fetch_issue session fuel key w2) as [j w3|e w3|w3]; simpl in *;
        apply (evolves_trans _ [EvGet (IssueRequest key); EvSleep wait] w2 evs _ H0);
        (eapply evolves_same; [..|exact Hev]); done.
    + apply Forall_app. split; [|done].
      detail_events_tac.
    + intros Hf j w'. destruct (fetch_issue session fuel key w2); [|done..].
      intros [= <- _]. by eapply Hkey.
  - unfold raise_for_status.
    destruct ((400 <=? status_code r) && (status_code r <? 600))%bool; simpl.
    { exists [EvGet (IssueRequest key)]. split; [by split|].
      split; [detail_events_tac|done]. }
    destruct (json r) as [j|e] eqn:Hj; simpl.
    + exists [EvGet (IssueRequest key)]. split; [by split|].
      split; [detail_events_tac|].
      intros Hf j' w' [= <- _]. by eapply Hf.
    + exists [EvGet (IssueRequest key)]. split; [by split|].
      split; [detail_events_tac|done].
Qed.

(** ** The loop over the issues of a page *)

Lemma for_issues_spec session fuel issues : forall seen raw tr w,
  exists evs,
    evolves w evs (final (for_issues session fuel issues seen raw tr w)) /\
    Forall network evs /\
    search_requests evs = [] /\
    (forall k, k ∈ detail_requests evs -> k ∉ seen) /\
    forall seen' raw' tr' w',
      for_issues session fuel issues seen raw tr w = Ok (seen', raw', tr') w' ->
      seen ⊆ seen' /\
      exists nr nt,
        raw' = raw ++ nr /\ tr' = tr ++ nt /\ Forall2 transformed_of nr nt /\
        (detail_faithful session ->
           NoDup (log_keys nr) /\
           (forall k, k ∈ seen' <-> k ∈ seen \/ k ∈ log_keys nr) /\
           (forall k, k ∈ log_keys nr -> k ∉ seen)).
Proof.
  induction issues as [|it rest IH]; intros seen raw tr w.
  { exists []. split; [apply evolves_refl|]. split; [constructor|].
    split; [done|]. split; [by intros k ?%elem_of_nil|].
    intros seen' raw' tr' w' [= <- <- <- _]. split; [done|].
    exists [], []. rewrite !app_nil_r. repeat split; try constructor.
    - set_solver.
    - intros [?|?%elem_of_nil]; done.
    - by intros k ?%elem_of_nil. }
  simpl. unfold mbind, M_bind, py, try_except.
  destruct (py_get it "key" JNull) as [kj|e]; simpl.
  2:{ exists []. split; [apply evolves_refl|]. split; [constructor|].
      split; [done|]. split; [by intros k ?%elem_of_nil|]. done. }
  destruct (py_hashable kj) as [key|e]; simpl.
  2:{ exists []. split; [apply evolves_refl|]. split; [constructor|].
      split; [done|]. split; [by intros k ?%elem_of_nil|]. done. }
  destruct (decide (key ∈ seen)) as [Hin|Hout]; [apply IH|].
  destruct (fetch_issue_spec session fuel key w) as (evs1 & Hev1 & Hdet1 & Hkey1).
  pose proof (detail_events_network _ _ Hdet1) as Hnet1.
  pose proof (detail_events_search _ _ Hdet1) as Hsearch1.
  assert (forall k, k ∈ detail_requests evs1 -> k ∉ seen) as Hreq1.
  { intros k Hk. by rewrite (detail_events_requests _ _ _ Hdet1 Hk). }
  destruct (fetch_issue session fuel key w) as [j w1|e w1|w1]; simpl in Hev1.
  - (* fetched *)
    destruct (transform_issue_for_llm j) as [t|e] eqn:Ht; simpl.
    2:{ exists evs1. split_and!; done. }
    destruct (IH ({[key]} ∪ seen) (raw ++ [RawLine j]) (tr ++ [TransformedLine t]) w1)
      as (evs2 & Hev2 & Hnet2 & Hsearch2 & Hreq2 & Hres2).
    exists (evs1 ++ evs2). split; [by eapply evolves_trans|].
    split; [by apply Forall_app|].
    split; [by rewrite search_requests_app, Hsearch1, Hsearch2|].
    split.
    { intros k. rewrite detail_requests_app, elem_of_app.
      intros [?|Hk]; [by apply Hreq1|]. apply Hreq2 in Hk. set_solver. }
    intros seen' raw' tr' w' Hrun.
    destruct (Hres2 _ _ _ _ Hrun) as (Hsub & nr & nt & -> & -> & Hall & Hfaith).
    split; [set_solver|].
    exists (RawLine j :: nr), (TransformedLine t :: nt).
    rewrite <- !app_assoc. split; [done|]. split; [done|].
    split. { constructor; [|done]. by exists j, t. }
    intros Hf. destruct (Hfaith Hf) as (Hnd & Hiff & Hfresh).
    assert (log_keys (RawLine j :: nr) = key :: log_keys nr) as ->.
    { unfold log_keys. simpl. by rewrite (Hkey1 Hf j w1 eq_refl). }
    split; [|split].
    + constructor; [|done]. intros Hk. apply Hfresh in Hk. set_solver.
    + intros k. rewrite Hiff, elem_of_cons. set_solver.
    + intros k [->|Hk]%elem_of_cons; [done|]. apply Hfresh in Hk. set_solver.
  - (* the fetch raised: the item is skipped *)
    destruct (IH seen raw tr w1) as (evs2 & Hev2 & Hnet2 & Hsearch2 & Hreq2 & Hres2).
    exists (evs1 ++ evs2). split; [by eapply evolves_trans|].
    split; [by apply Forall_app|].
    split; [by rewrite search_requests_app, Hsearch1, Hsearch2|].
    split.
    { intros k. rewrite detail_requests_app, elem_of_app.
      intros [?|Hk]; [by apply Hreq1|]. by apply Hreq2. }
    done.
  - exists evs1. split_and!; done.
Qed.

(** ** One pass through the loop body *)

Lemma fresh_batch_nil (seen : gset Key) :
  NoDup (log_keys []) /\
  (forall k, k ∈ seen <-> k ∈ seen \/ k ∈ log_keys []) /\
  (forall k, k ∈ log_keys [] -> k ∉ seen).
Proof.
  split; [constructor|]. split.
  - intros k. split; [by left|]. by intros [?|?%elem_of_nil].
  - by intros k ?%elem_of_nil.
Qed.

(** A pass that stops before the issues are looked at. *)
Lemma body_shape_early session pk c seen w R net :
  evolves w (EvGet (search pk c) :: net) (final R) ->
  Forall network net -> search_requests net = [] -> detail_requests net = [] ->
  (forall ctl w', R = Ok ctl w' ->
     pass_result session pk (requests_made w) c seen net [] seen None ctl) ->
  body_shape session pk c seen w R.
Proof.
  intros Hev Hnet Hsearch Hdet Hctl.
  exists net, [], [], seen, None. simpl. rewrite app_nil_r.
  split; [done|]. split; [|done].
  unfold pass_shape. split_and!; try done.
  - rewrite Hdet. by intros k ?%elem_of_nil.
  - intros _. apply fresh_batch_nil.
Qed.

Lemma evolves_get w req :
  evolves w [EvGet req] (tick (log_event (EvGet req) w)).
Proof. by split. Qed.

Lemma evolves_get_sleep w req s :
  evolves w [EvGet req; EvSleep s] (log_event (EvSleep s) (tick (log_event (EvGet req) w))).
Proof. split; [|done]. simpl. by rewrite <- app_assoc. Qed.

Lemma evolves_write w path records :
  evolves w [EvWriteJsonl path records]
    (set_disk (append_records path records (disk w))
       (log_event (EvWriteJsonl path records) w)).
Proof. by split. Qed.

Lemma evolves_save w st :
  evolves w [EvSaveState st]
    (set_disk (store_state st (disk w)) (log_event (EvSaveState st) w)).
Proof. by split. Qed.

Lemma evolves_page_writes w nr nt :
  evolves w (page_writes nr nt)
    (final ((if negb (Nat.eqb (length nr) 0)
             then _ ← write_jsonl raw_out nr; write_jsonl transformed_out nt
             else mret tt) w)).
Proof.
  unfold page_writes. destruct (negb (Nat.eqb (length nr) 0)); simpl.
  - eapply (evolves_trans _ [EvWriteJsonl raw_out nr] _ [EvWriteJsonl transformed_out nt]);
      apply evolves_write.
  - apply evolves_refl.
Qed.

Lemma page_writes_returns nr nt w :
  exists w1,
    (if negb (Nat.eqb (length nr) 0)
     then _ ← write_jsonl raw_out nr; write_jsonl transformed_out nt
     else mret tt) w = Ok tt w1.
Proof. destruct (negb (Nat.eqb (length nr) 0)); by eexists. Qed.

Lemma py_len_nonneg o n : py_len o = Returns n -> 0 <= n.
Proof. destruct o; simpl; intros [= <-]; lia. Qed.

Ltac early_tac :=
  first
    [ apply evolves_get
    | apply evolves_get_sleep
    | done
    | by repeat constructor
    | intros ? ? [= <- _]; simpl; split_and!; try done; eauto 10 ].

Lemma loop_body_shape session fuel pk c seen w :
  body_shape session pk c seen w (loop_body session fuel pk c seen w).
Proof.
  unfold loop_body. unfold mbind at 1, M_bind at 1, session_get, py.
  fold (search pk c).
  destruct (session (requests_made w) (search pk c)) as [r|e] eqn:Hs.
  2:{ apply (body_shape_early _ _ _ _ _ _ []); early_tac. }
  destruct (decide (status_code r = 429)) as [H429|H429].
  { unfold mbind, M_bind, py, time_sleep.
    destruct (retry_after_wait (retry_after r)) as [wait|e].
    - apply (body_shape_early _ _ _ _ _ _ [EvSleep wait]); early_tac.
    - apply (body_shape_early _ _ _ _ _ _ []); early_tac. }
  destruct (decide (500 <= status_code r)) as [H500|H500].
  { unfold mbind, M_bind, time_sleep.
    apply (body_shape_early _ _ _ _ _ _ [EvSleep 10]); early_tac. }
  unfold mbind at 1, M_bind at 1, raise_for_status.
  destruct ((400 <=? status_code r) && (status_code r <? 600))%bool eqn:Hstatus.
  { apply (body_shape_early _ _ _ _ _ _ []); early_tac. }
  unfold mret at 1, M_ret at 1. unfold mbind at 1, M_bind at 1, py.
  destruct (json r) as [resp|e] eqn:Hj.
  2:{ apply (body_shape_early _ _ _ _ _ _ []); early_tac. }
  unfold mbind at 1, M_bind at 1, py.
  destruct (py_get resp "issues" (JList [])) as [issues|e] eqn:Hissues.
  2:{ apply (body_shape_early _ _ _ _ _ _ []); early_tac. }
  destruct (truthy issues) eqn:Htruthy; simpl.
  2:{ apply (body_shape_early _ _ _ _ _ _ []); early_tac. }
  unfold mbind at 1, M_bind at 1, py.
  destruct (py_iter issues) as [its|e] eqn:Hits.
  2:{ apply (body_shape_early _ _ _ _ _ _ []); early_tac. }
  set (w1 := tick (log_event _ w)).
  assert (evolves w [EvGet (search pk c)] w1) as H01 by apply evolves_get.
  unfold mbind at 1, M_bind at 1.
  destruct (for_issues_spec session fuel its seen [] [] w1)
    as (net & Hev & Hnet & Hsearch & Hreq & Hres).
  destruct (for_issues session fuel its seen [] [] w1) as [[[seen' nr] nt] w2|e w2|w2];
    simpl in Hev.
  2,3: (exists net, [], [], seen, None; simpl; rewrite app_nil_r;
        split; [by apply (evolves_trans _ [_] _ _ _ H01)|]; split; [|done];
        unfold pass_shape; split_and!; try done;
        intros _; apply fresh_batch_nil).
  destruct (Hres _ _ _ _ eq_refl) as (Hsub & nr' & nt' & Hnr & Hnt & Hall & Hfaith).
  simpl in Hnr, Hnt. subst nr' nt'.
  unfold mbind at 1, M_bind at 1.
  pose proof (evolves_page_writes w2 nr nt) as Hw.
  destruct (page_writes_returns nr nt w2) as [w3 Hw3].
  rewrite Hw3 in Hw |- *. simpl in Hw.
  assert (evolves w (EvGet (search pk c) :: net ++ page_writes nr nt) w3) as H03.
  { apply (evolves_trans _ [_] _ _ _ H01). by eapply evolves_trans. }
  unfold mbind at 1, M_bind at 1, py. fold (reported_offset resp c).
  assert (forall sv, (forall st, sv = Some st ->
            seen_issue_keys st = elements seen' /\
            exists r0 resp0 issues0 base0 len0,
              session (requests_made w) (search pk c) = Returns r0 /\
              status_code r0 <> 429 /\ status_code r0 < 400 /\
              json r0 = Returns resp0 /\
              py_get resp0 "issues" (JList []) = Returns issues0 /\
              truthy issues0 = true /\
              reported_offset resp0 c = Returns base0 /\
              py_len issues0 = Returns len0 /\
              startAt st = base0 + len0) ->
          pass_shape session pk (requests_made w) c seen net nr nt seen' sv) as Hshape.
  { intros sv Hsv. unfold pass_shape. split_and!; done. }
  destruct (reported_offset resp c) as [base|e] eqn:Hbase.
  2:{ exists net, nr, nt, seen', None. simpl. rewrite app_nil_r.
      split; [done|]. split; [by apply Hshape|done]. }
  unfold mbind at 1, M_bind at 1, py.
  destruct (py_len issues) as [n|e] eqn:Hn.
  2:{ exists net, nr, nt, seen', None. simpl. rewrite app_nil_r.
      split; [done|]. split; [by apply Hshape|done]. }
  unfold mbind at 1, M_bind at 1, save_state.
  set (st := {| startAt := base + n; seen_issue_keys := elements seen' |}).
  set (w4 := set_disk _ _).
  assert (evolves w (EvGet (search pk c) :: net ++ page_writes nr nt ++ save_events (Some st)) w4)
    as H04.
  { replace (EvGet (search pk c) :: net ++ page_writes nr nt ++ save_events (Some st))
      with ((EvGet (search pk c) :: net ++ page_writes nr nt) ++ [EvSaveState st])
      by (simpl; by rewrite <- app_assoc).
    eapply evolves_trans; [exact H03|]. apply evolves_save. }
  assert (status_code r < 400) as H400.
  { apply andb_false_iff in Hstatus. destruct Hstatus as [?%Z.leb_gt|?%Z.ltb_ge]; lia. }
  exists net, nr, nt, seen', (Some st).
  split; [|split].
  - unfold mbind, M_bind, py.
    change (PyResult_bind _ _ _ _) with (reported_total resp (base + n)).
    destruct (reported_total resp (base + n)); exact H04.
  - apply Hshape. intros st' [= <-]. split; [done|].
    exists r, resp, issues, base, n. by split_and!.
  - unfold mbind, M_bind, py.
    change (PyResult_bind _ _ _ _) with (reported_total resp (base + n)).
    destruct (reported_total resp (base + n)) as [total|e] eqn:Htotal; [|done].
    intros ctl w' [= <- _]. simpl. split; [done|]. split; [done|].
    exists r, resp, total. by split_and!.
Qed.

(** ** The loop *)

Lemma scrape_project_loop session fuel pk w :
  scrape_project session fuel pk w =
  scrape_loop session fuel pk (startAt (loaded_state w)) (loaded_seen w) w.
Proof. reflexivity. Qed.

Lemma scrape_loop_shape session fuel pk : forall c seen w,
  exists evs,
    evolves w evs (final (scrape_loop session fuel pk c seen w)) /\
    run_shape session pk c seen evs.
Proof.
  induction fuel as [|fuel IH]; intros c seen w.
  { exists []. split; [apply evolves_refl|constructor]. }
  simpl. unfold mbind, M_bind.
  destruct (loop_body_shape session fuel pk c seen w)
    as (net & nr & nt & seen' & sv & Hev & Hpass & Hres).
  assert (forall evs, EvGet (search pk c) :: net ++ page_writes nr nt ++ save_events sv ++ evs =
            (EvGet (search pk c) :: net ++ page_writes nr nt ++ save_events sv) ++ evs) as Happ.
  { intros evs. simpl. by rewrite <- !app_assoc. }
  assert (forall w1, evolves w (EvGet (search pk c) :: net ++ page_writes nr nt ++ save_events sv) w1 ->
            exists evs, evolves w evs w1 /\ run_shape session pk c seen evs) as Hstop.
  { intros w1 Hw1. eexists. split; [exact Hw1|].
    rewrite <- (app_nil_r (save_events sv)).
    eapply run_pass; [exact Hpass|by right|constructor]. }
  destruct (loop_body session fuel pk c seen w) as [ctl w1|e w1|w1]; simpl in Hev;
    [|by apply Hstop..].
  specialize (Hres ctl w1 eq_refl).
  destruct ctl as [|c' s'' [|]]; [by apply Hstop| |by apply Hstop].
  destruct (IH c' s'' w1) as (evs & Hevs & Hrun).
  exists (EvGet (search pk c) :: net ++ page_writes nr nt ++ save_events sv ++ evs).
  split; [rewrite Happ; by eapply evolves_trans|].
  simpl in Hres. destruct sv as [st|].
  - destruct Hres as (-> & -> & _). by eapply run_pass.
  - destruct Hres as (-> & -> & -> & _). eapply run_pass; [exact Hpass|by left|done].
Qed.

Lemma lines_replay path d evs :
  lines path (foldl replay d evs) = lines path d ++ written path evs.
Proof.
  revert d. induction evs as [|e evs IH]; intros d; simpl.
  { by rewrite app_nil_r. }
  rewrite IH, app_assoc. f_equal.
  destruct e as [req|s|p records|st]; simpl; rewrite ?app_nil_r; try done.
  unfold lines, append_records.
  destruct d as [rf tf sf], p, path; simpl; rewrite ?app_nil_r; try done.
  - by destruct rf.
  - by destruct tf.
Qed.

Lemma evolves_lines path w evs w' :
  evolves w evs w' ->
  lines path (disk w') = lines path (disk w) ++ written path evs.
Proof. intros [_ ->]. apply lines_replay. Qed.

(** ** Properties of the trace of a run *)

Lemma written_raw_page_writes nr nt : written raw_out (page_writes nr nt) = nr.
Proof.
  unfold page_writes. destruct nr; simpl; [done|]. by rewrite app_nil_r.
Qed.

Lemma written_transformed_page_writes nr nt :
  Forall2 transformed_of nr nt -> written transformed_out (page_writes nr nt) = nt.
Proof.
  intros H. unfold page_writes. destruct H; simpl; [done|]. by rewrite app_nil_r.
Qed.

Lemma written_save_events path sv : written path (save_events sv) = [].
Proof. by destruct sv. Qed.

Lemma written_pass path pk c net nr nt sv evs :
  Forall network net ->
  written path (EvGet (search pk c) :: net ++ page_writes nr nt ++ save_events sv ++ evs) =
  written path (page_writes nr nt) ++ written path evs.
Proof.
  intros Hnet. change (EvGet ?a :: ?l) with ([EvGet a] ++ l).
  rewrite !written_app, (network_written _ net Hnet), written_save_events. done.
Qed.

Lemma run_shape_pairs session pk c seen evs :
  run_shape session pk c seen evs ->
  Forall2 transformed_of (written raw_out evs) (written transformed_out evs).
Proof.
  induction 1 as [|n c seen net nr nt seen' sv evs Hpass Hlast _ IH]; [constructor|].
  destruct Hpass as (Hnet & _ & _ & Hall & _).
  rewrite !written_pass by done.
  rewrite written_raw_page_writes, written_transformed_page_writes by done.
  by apply Forall2_app.
Qed.









Lemma saved_pass pk c net nr nt sv evs :
  Forall network net ->
  saved (EvGet (search pk c) :: net ++ page_writes nr nt ++ save_events sv ++ evs) =
  saved (save_events sv) ++ saved evs.
Proof.
  intros Hnet. change (EvGet ?a :: ?l) with ([EvGet a] ++ l).
  rewrite !saved_app, (network_saved net Hnet). simpl.
  unfold page_writes. by destruct (negb _).
Qed.

Lemma seen_of_elements (s : gset Key) st :
  seen_issue_keys st = elements s -> seen_of st = s.
Proof. unfold seen_of. intros ->. apply list_to_set_elements_L. Qed.

Lemma run_shape_seen_grows session pk c seen evs :
  run_shape session pk c seen evs ->
  forall st0, seen_of st0 ⊆ seen ->
    chain (fun a b => seen_of a ⊆ seen_of b) st0 (saved evs).
Proof.
  induction 1 as [|n c seen net nr nt seen' sv evs Hpass Hlast _ IH]; intros st0 H0;
    [done|].
  destruct Hpass as (Hnet & _ & _ & _ & Hsub & _ & Hsave).
  rewrite saved_pass by done.
  destruct sv as [st|]; simpl; [|by apply IH].
  destruct (Hsave st eq_refl) as [Hst _].
  rewrite (seen_of_elements seen' st Hst).
  split; [set_solver|]. apply IH. by rewrite (seen_of_elements seen' st Hst).
Qed.

Lemma run_shape_cursor_grows session pk c seen evs :
  offsets_echoed session ->
  run_shape session pk c seen evs ->
  forall st0, startAt st0 <= c ->
    chain (fun a b => startAt a <= startAt b) st0 (saved evs).
Proof.
  intros Hecho.
  induction 1 as [|n c seen net nr nt seen' sv evs Hpass Hlast _ IH]; intros st0 H0;
    [done|].
  destruct Hpass as (Hnet & _ & _ & _ & Hsub & _ & Hsave).
  rewrite saved_pass by done.
  destruct sv as [st|]; simpl; [|by apply IH].
  destruct (Hsave st eq_refl)
    as (_ & r & resp & issues & base & len & Hs & _ & _ & Hj & _ & _ & Hbase & Hlen & Hst).
  apply py_len_nonneg in Hlen.
  pose proof (Hecho _ _ _ _ _ _ _ Hs Hj Hbase).
  split; [lia|]. apply IH. lia.
Qed.

(** ** The claims about a whole run *)


Lemma stale_offset_detail_faithful : detail_faithful stale_offset.
Proof.
  intros n k r j [= <-]. simpl. intros [= <-]. by destruct k.
Qed.


Lemma evolves_saved_last w evs st w' :
  evolves w (evs ++ [EvSaveState st]) w' -> state_file (disk w') = Some st.
Proof. intros [_ ->]. by rewrite foldl_app. Qed.




(** C8: order preservation. In every run the records appended to the
    transformed log are, one for one and in the same order, the transforms
    of the records appended to the raw log; [write_jsonl] appends its
    records in the order given. *)
Theorem transformed_log_mirrors_raw_log session fuel pk w :
  exists evs,
    evolves w evs (final (scrape_project session fuel pk w)) /\
    lines raw_out (disk (final (scrape_project session fuel pk w))) =
      lines raw_out (disk w) ++ written raw_out evs /\
    lines transformed_out (disk (final (scrape_project session fuel pk w))) =
      lines transformed_out (disk w) ++ written transformed_out evs /\
    Forall2 transformed_of (written raw_out evs) (written transformed_out evs) /\
    forall path records w0,
      lines path (disk (final (write_jsonl path records w0))) =
      lines path (disk w0) ++ records.
Proof.
  rewrite scrape_project_loop.
  destruct (scrape_loop_shape session fuel pk (startAt (loaded_state w)) (loaded_seen w) w)
    as (evs & Hev & Hrun).
  exists evs. split; [done|].
  split; [by apply evolves_lines|]. split; [by apply evolves_lines|].
  split; [by eapply run_shape_pairs|].
  intros path records w0. unfold write_jsonl, final.
  rewrite (evolves_lines path w0 [EvWriteJsonl path records] _ (evolves_write _ _ _)).
  simpl. rewrite app_nil_r. by destruct (decide (path = path)).
Qed.

(** C7, as the code has it: along the checkpoints saved by a run, starting
    from the loaded one, the [seen] set only grows whatever the server
    answers; the cursor does not decrease when no search response reports an
    offset below the one asked for. *)
Theorem checkpoint_seen_grows_cursor_follows_server session fuel pk w :
  exists evs,
    evolves w evs (final (scrape_project session fuel pk w)) /\
    chain (fun a b => seen_of a ⊆ seen_of b) (loaded_state w) (saved evs) /\
    (offsets_echoed session ->
     chain (fun a b => startAt a <= startAt b) (loaded_state w) (saved evs)).
Proof.
  rewrite scrape_project_loop.
  destruct (scrape_loop_shape session fuel pk (startAt (loaded_state w)) (loaded_seen w) w)
    as (evs & Hev & Hrun).
  exists evs. split; [done|]. split.
  - by apply (run_shape_seen_grows _ _ _ _ _ Hrun).
  - intros Hecho. by apply (run_shape_cursor_grows _ _ _ _ _ Hecho Hrun).
Qed.

Lemma jira_offsets_echoed items P : offsets_echoed (jira items P).
Proof.
  intros n pk c m r resp base [= <-]. simpl. intros [= <-].
  unfold reported_offset. simpl. intros [= <-]. lia.
Qed.

Lemma checkpoint_seen_grows_cursor_follows_server_witness :
  offsets_echoed (jira [summary "HADOOP-1"; summary "HADOOP-2"; summary "HADOOP-3"] 2) /\
  chain (fun a b => startAt a <= startAt b) (loaded_state fresh_world)
    (saved (trace (final
       (scrape_project (jira [summary "HADOOP-1"; summary "HADOOP-2"; summary "HADOOP-3"] 2)
          5 "HADOOP" fresh_world)))).
Proof.
  split; [apply jira_offsets_echoed|].
  destruct (checkpoint_seen_grows_cursor_follows_server
              (jira [summary "HADOOP-1"; summary "HADOOP-2"; summary "HADOOP-3"] 2)
              5 "HADOOP" fresh_world)
    as (evs & [Htrace _] & _ & Hcursor).
  rewrite Htrace. simpl. apply Hcursor, jira_offsets_echoed.
Defined.

(** C7, as stated, fails: a server whose second page reports the offset 0
    makes the run save the cursor 2 and then the cursor 1. *)
Lemma cursor_decreases_on_stale_offset :
  map startAt (saved (trace (final (scrape_project stale_offset 5 "HADOOP" fresh_world))))
    = [2; 1] /\
  ~ chain (fun a b => startAt a <= startAt b) (loaded_state fresh_world)
      (saved (trace (final (scrape_project stale_offset 5 "HADOOP" fresh_world)))).
Proof.
  split; [by vm_compute|].
  vm_compute. intros (_ & H & _). by apply H.
Qed.

(** ** The claims about one page *)

Lemma search_requests_pass pk c net nr nt sv :
  search_requests net = [] ->
  search_requests (EvGet (search pk c) :: net ++ page_writes nr nt ++ save_events sv) = [c].
Proof.
  intros Hnet. change (EvGet ?a :: ?l) with ([EvGet a] ++ l).
  rewrite !search_requests_app, Hnet. simpl.
  unfold page_writes. by destruct (negb _), sv.
Qed.

(** The pass over a page with issues, when it returns. *)
Lemma loop_body_page session fuel pk c seen w r resp issues ctl w' :
  session (requests_made w) (search pk c) = Returns r ->
  status_code r <> 429 -> status_code r < 500 ->
  json r = Returns resp ->
  py_get resp "issues" (JList []) = Returns issues ->
  truthy issues = true ->
  loop_body session fuel pk c seen w = Ok ctl w' ->
  exists net nr nt seen' base len more,
    reported_offset resp c = Returns base /\
    py_len issues = Returns len /\
    ctl = Next (base + len) seen' more /\
    evolves w
      (EvGet (search pk c) :: net ++ page_writes nr nt ++
         [EvSaveState {| startAt := base + len; seen_issue_keys := elements seen' |}]) w' /\
    Forall network net /\
    search_requests net = [] /\
    Forall2 transformed_of nr nt /\
    lines raw_out (disk w') = lines raw_out (disk w) ++ nr /\
    lines transformed_out (disk w') = lines transformed_out (disk w) ++ nt /\
    state_file (disk w') =
      Some {| startAt := base + len; seen_issue_keys := elements seen' |} /\
    exists total,
      reported_total resp (base + len) = Returns total /\
      more = negb (total <=? base + len).
Proof.
  intros Hs H429 H500 Hj Hissues Htruthy Hrun.
  destruct (loop_body_shape session fuel pk c seen w)
    as (net & nr & nt & seen' & sv & Hev & Hpass & Hres).
  rewrite Hrun in Hev. simpl in Hev. specialize (Hres ctl w' Hrun).
  destruct Hpass as (Hnet & Hsearch & _ & Hall & _ & _ & Hsave).
  destruct ctl as [|c' s'' more]; simpl in Hres.
  { destruct Hres as (_ & _ & _ & r0 & resp0 & issues0 & Hs0 & Hj0 & Hi0 & Ht0).
    congruence. }
  destruct sv as [st|].
  2:{ destruct Hres as (_ & _ & _ & _ & r0 & Hs0 & Hr0).
      assert (r0 = r) as -> by congruence. lia. }
  destruct Hres as (-> & -> & r1 & resp1 & total & Hs1 & Hj1 & Htot & Hmore).
  destruct (Hsave st eq_refl)
    as (Hst & r0 & resp0 & issues0 & base & len & Hs0 & _ & _ & Hj0 & Hi0 & _ & Hb & Hl & Hc).
  assert (r0 = r) as -> by congruence.
  assert (resp0 = resp) as -> by congruence.
  assert (issues0 = issues) as -> by congruence.
  assert (resp1 = resp) as -> by congruence.
  assert (st = {| startAt := base + len; seen_issue_keys := elements seen' |}) as Hst'.
  { destruct st. simpl in *. by subst. }
  rewrite Hst' in *. simpl.
  exists net, nr, nt, seen', base, len, more.
  split_and!; try done.
  - rewrite (evolves_lines raw_out _ _ _ Hev).
    rewrite <- (app_nil_r (save_events _)), written_pass by done.
    by rewrite written_raw_page_writes, app_nil_r.
  - rewrite (evolves_lines transformed_out _ _ _ Hev).
    rewrite <- (app_nil_r (save_events _)), written_pass by done.
    by rewrite written_transformed_page_writes, app_nil_r.
  - apply (evolves_saved_last w (EvGet (search pk c) :: net ++ page_writes nr nt) _ w').
    simpl in *. by rewrite <- app_assoc.
  - by exists total.
Qed.




(** ** Empty pages and exhaustive pagination *)

Lemma loop_body_empty session fuel pk c seen w r resp issues :
  session (requests_made w) (search pk c) = Returns r ->
  status_code r < 400 ->
  json r = Returns resp ->
  py_get resp "issues" (JList []) = Returns issues ->
  truthy issues = false ->
  loop_body session fuel pk c seen w = Ok Break (tick (log_event (EvGet (search pk c)) w)).
Proof.
  intros Hs H400 Hj Hissues Htruthy.
  unfold loop_body. unfold mbind, M_bind, session_get, py. fold (search pk c).
  rewrite Hs.
  destruct (decide (status_code r = 429)); [lia|].
  destruct (decide (500 <= status_code r)); [lia|].
  unfold raise_for_status.
  replace (400 <=? status_code r) with false by (symmetry; apply Z.leb_gt; lia).
  simpl. by rewrite Hj, Hissues, Htruthy.
Qed.

Lemma scrape_loop_empty session fuel pk c seen w r resp issues :
  session (requests_made w) (search pk c) = Returns r ->
  status_code r < 400 ->
  json r = Returns resp ->
  py_get resp "issues" (JList []) = Returns issues ->
  truthy issues = false ->
  scrape_loop session (S fuel) pk c seen w =
    Ok (c, seen) (tick (log_event (EvGet (search pk c)) w)).
Proof.
  intros Hs H400 Hj Hissues Htruthy. simpl. unfold mbind, M_bind.
  by rewrite (loop_body_empty _ _ _ _ _ _ _ _ _ Hs H400 Hj Hissues Htruthy).
Qed.

Lemma scrape_loop_first_request session fuel pk c seen w :
  exists evs,
    trace (final (scrape_loop session (S fuel) pk c seen w)) =
    trace w ++ EvGet (search pk c) :: evs.
Proof.
  simpl. unfold mbind, M_bind.
  destruct (loop_body_shape session fuel pk c seen w)
    as (net & nr & nt & seen' & sv & [Ht _] & _).
  destruct (loop_body session fuel pk c seen w) as [ctl w1|e w1|w1];
    simpl in Ht; [|by eexists..].
  destruct ctl as [|c' s'' [|]]; [by eexists| |by eexists].
  destruct (scrape_loop_shape session fuel pk c' s'' w1) as (evs & [Ht' _] & _).
  rewrite Ht', Ht. eexists. by rewrite <- app_assoc.
Qed.

(** C10: a run always issues the search request at the loaded offset,
    whatever the checkpoint holds; when the answer to it is a page without
    issues, the run returns with that request as its only event: no line is
    appended to either log, [save_state] is not called, and the three files
    are what they were. *)
Theorem first_search_always_issued_and_empty_page_touches_no_file
    session fuel pk w :
  (exists evs,
     trace (final (scrape_project session (S fuel) pk w)) =
     trace w ++ EvGet (search pk (startAt (loaded_state w))) :: evs) /\
  (forall r resp issues,
     session (requests_made w) (search pk (startAt (loaded_state w))) = Returns r ->
     status_code r < 400 ->
     json r = Returns resp ->
     py_get resp "issues" (JList []) = Returns issues ->
     truthy issues = false ->
     exists w',
       scrape_project session (S fuel) pk w =
         Ok (startAt (loaded_state w), loaded_seen w) w' /\
       trace w' = trace w ++ [EvGet (search pk (startAt (loaded_state w)))] /\
       disk w' = disk w).
Proof.
  rewrite scrape_project_loop. split; [apply scrape_loop_first_request|].
  intros r resp issues Hs H400 Hj Hissues Htruthy.
  eexists. split; [by eapply scrape_loop_empty|]. done.
Qed.

Lemma first_search_always_issued_and_empty_page_touches_no_file_witness :
  exists w',
    scrape_project (jira three_issues 50) 1 "HADOOP" (resumed_world done_checkpoint) =
      Ok (3, loaded_seen (resumed_world done_checkpoint)) w' /\
    trace w' = [EvGet (search "HADOOP" 3)] /\
    disk w' = disk (resumed_world done_checkpoint).
Proof.
  destruct (first_search_always_issued_and_empty_page_touches_no_file
              (jira three_issues 50) 0 "HADOOP" (resumed_world done_checkpoint))
    as [_ H].
  apply (H {| status_code := 200; retry_after := None;
              json := Returns (search_body three_issues 50 3) |}
           (search_body three_issues 50 3) (JList []));
    [reflexivity | simpl; lia | reflexivity | reflexivity | reflexivity].
Defined.

Lemma fetch_issue_served session fuel key w :
  details_served session ->
  match fetch_issue session (S fuel) key w with
  | Ok j _ => exists t, transform_issue_for_llm j = Returns t
  | Exc _ _ => True
  | OutOfFuel _ => False
  end.
Proof.
  intros Hd. simpl. unfold call, mbind, M_bind, session_get, py. simpl.
  destruct (session (requests_made w) (IssueRequest key)) as [r|e] eqn:Hs; [|done].
  destruct (Hd _ _ _ Hs) as [H429 Hj].
  destruct (decide (status_code r = 429)); [done|].
  unfold raise_for_status.
  destruct ((400 <=? status_code r) && (status_code r <? 600))%bool; simpl; [done|].
  destruct (json r) as [j|e]; simpl; [by apply Hj|done].
Qed.

Lemma for_issues_served session fuel its :
  details_served session -> Forall keyed its ->
  forall seen raw tr w, exists res w',
    for_issues session (S fuel) its seen raw tr w = Ok res w'.
Proof.
  intros Hd. remember (S fuel) as f eqn:Hf.
  induction 1 as [|it its [k Hk] _ IH]; intros seen raw tr w; [by eexists _, _|].
  simpl. unfold mbind, M_bind, py, try_except.
  destruct (py_get it "key" JNull) as [kj|e]; [|done]. simpl in Hk. rewrite Hk.
  destruct (decide (k ∈ seen)); [apply IH|].
  pose proof (fetch_issue_served session fuel k w Hd) as Hfetch. rewrite <- Hf in Hfetch.
  destruct (fetch_issue session f k w) as [j w1|e w1|w1]; [|apply IH|done].
  destruct Hfetch as [t ->]. apply IH.
Qed.

(** A pass over a served page with issues returns. *)
Lemma loop_body_served session fuel pk c seen w r resp its base len total :
  details_served session -> Forall keyed its ->
  session (requests_made w) (search pk c) = Returns r ->
  status_code r = 200 ->
  json r = Returns resp ->
  py_get resp "issues" (JList []) = Returns (JList its) ->
  its <> [] ->
  reported_offset resp c = Returns base ->
  len = Z.of_nat (length its) ->
  reported_total resp (base + len) = Returns total ->
  exists ctl w', loop_body session (S fuel) pk c seen w = Ok ctl w'.
Proof.
  intros Hd Hits Hs H200 Hj Hissues Hne Hbase -> Htotal.
  unfold loop_body. unfold mbind at 1, M_bind at 1, session_get, py.
  fold (search pk c). rewrite Hs.
  destruct (decide (status_code r = 429)); [lia|].
  destruct (decide (500 <= status_code r)); [lia|].
  unfold mbind at 1, M_bind at 1, raise_for_status. rewrite H200. simpl.
  unfold mbind at 1, M_bind at 1, py. rewrite Hj.
  unfold mbind at 1, M_bind at 1, py. rewrite Hissues.
  assert (truthy (JList its) = true) as -> by (by destruct its).
  cbn [negb]. cbv beta iota.
  unfold mbind at 1, M_bind at 1, py. cbn [py_iter]. cbv beta iota.
  unfold mbind at 1, M_bind at 1.
  destruct (for_issues_served session fuel its Hd Hits seen [] []
              (tick (log_event (EvGet (search pk c)) w))) as ([[seen' nr] nt] & w2 & ->).
  unfold mbind at 1, M_bind at 1.
  destruct (page_writes_returns nr nt w2) as [w3 ->].
  unfold mbind at 1, M_bind at 1, py. fold (reported_offset resp c). rewrite Hbase.
  unfold mbind at 1, M_bind at 1, py. cbn [py_len]. cbv beta iota.
  unfold mbind at 1, M_bind at 1, save_state.
  unfold mbind at 1, M_bind at 1, py.
  change (py_get resp "total" _ ≫= py_int_operand)
    with (reported_total resp (base + Z.of_nat (length its))).
  rewrite Htotal. by eexists _, _.
Qed.

Lemma page_length items P c :
  0 <= c ->
  Z.of_nat (length (page items P c)) =
  Z.max 0 (Z.min (Z.of_nat P) (Z.of_nat (length items) - c)).
Proof. intros Hc. unfold page. rewrite length_take, length_drop. lia. Qed.

Lemma page_keyed items P c : Forall keyed items -> Forall keyed (page items P c).
Proof. intros H. unfold page. by apply Forall_take, Forall_drop. Qed.

Lemma ceil_div_one a b : 0 < a -> a <= b -> ceil_div a b = 1.
Proof.
  intros Ha Hb. unfold ceil_div.
  replace (a + b - 1) with ((a - 1) + 1 * b) by lia.
  rewrite Z.div_add by lia. rewrite Z.div_small; lia.
Qed.

Lemma ceil_div_step a b : 0 < b -> ceil_div a b = ceil_div (a - b) b + 1.
Proof.
  intros Hb. unfold ceil_div.
  replace (a + b - 1) with ((a - b + b - 1) + 1 * b) by lia.
  by rewrite Z.div_add by lia.
Qed.

Lemma scrape_loop_exhausts session pk items P :
  (0 < P)%nat -> serves session pk items P -> details_served session ->
  Forall keyed items ->
  forall m c seen w fuel,
    0 <= c < Z.of_nat (length items) ->
    ceil_div (Z.of_nat (length items) - c) (Z.of_nat P) = Z.of_nat m ->
    (m < fuel)%nat ->
    exists seen' w' evs,
      scrape_loop session fuel pk c seen w = Ok (Z.of_nat (length items), seen') w' /\
      trace w' = trace w ++ evs /\
      length (search_requests evs) = m.
Proof.
  intros HP Hserves Hd Hkeyed. set (T := Z.of_nat (length items)).
  induction m as [|m IH]; intros c seen w fuel Hc Hm Hfuel.
  { exfalso. destruct (Z.le_gt_cases (T - c) (Z.of_nat P)).
    - rewrite ceil_div_one in Hm; lia.
    - rewrite ceil_div_step in Hm by lia.
      assert (0 <= ceil_div (T - c - Z.of_nat P) (Z.of_nat P)); [|lia].
      unfold ceil_div. apply Z.div_pos; lia. }
  destruct fuel as [|[|fuel]]; [lia..|].
  destruct (Hserves (requests_made w) c)
    as (r & resp & Hs & H200 & Hj & Hissues & Hbase & Htotal).
  pose proof (page_length items P c ltac:(lia)) as Hlen. fold T in Hlen.
  assert (page items P c <> []) as Hne.
  { intros Hnil. rewrite Hnil in Hlen. simpl in Hlen. lia. }
  destruct (loop_body_served session fuel pk c seen w r resp (page items P c) c
              _ T Hd (page_keyed _ _ _ Hkeyed) Hs H200 Hj Hissues Hne Hbase eq_refl
              (Htotal _)) as (ctl & w1 & Hrun).
  destruct (loop_body_page session (S fuel) pk c seen w r resp _ ctl w1 Hs
              ltac:(lia) ltac:(lia) Hj Hissues ltac:(by destruct (page items P c)) Hrun)
    as (net & nr & nt & seen' & base & len & more & Hb & Hl & -> & [Ht _] & _ & Hsearch
        & _ & _ & _ & _ & total & Htot & ->).
  rewrite Hbase in Hb. injection Hb as <-.
  simpl in Hl. injection Hl as <-.
  rewrite Htotal in Htot. injection Htot as <-.
  assert (forall evs,
            length (search_requests
              ((EvGet (search pk c) :: net ++ page_writes nr nt ++
                  [EvSaveState {| startAt := c + Z.of_nat (length (page items P c));
                                  seen_issue_keys := elements seen' |}]) ++ evs)) =
            S (length (search_requests evs))) as Hcount.
  { intros evs. rewrite search_requests_app.
    change [EvSaveState ?s] with (save_events (Some s)).
    by rewrite (search_requests_pass pk c net nr nt (Some _) Hsearch). }
  remember (S fuel) as f eqn:Hf.
  cbn [scrape_loop]. unfold mbind, M_bind. rewrite Hrun. fold T.
  destruct (Z.le_gt_cases (T - c) (Z.of_nat P)) as [Hlast|Hmore].
  - (* the last page *)
    replace (c + Z.of_nat (length (page items P c))) with T in * by lia.
    rewrite Z.leb_refl. simpl.
    rewrite ceil_div_one in Hm by lia.
    eexists seen', w1, _. split; [done|]. split; [exact Ht|].
    rewrite <- (app_nil_r (_ :: _)), Hcount. simpl. lia.
  - replace (T <=? c + Z.of_nat (length (page items P c))) with false
      by (symmetry; apply Z.leb_gt; lia).
    cbn [negb]. cbv beta iota. rewrite ceil_div_step in Hm by lia.
    destruct (IH (c + Z.of_nat (length (page items P c))) seen' w1 f)
      as (seen'' & w' & evs & Hloop & Ht' & Hn); [lia| |lia|].
    { replace (T - (c + Z.of_nat (length (page items P c)))) with (T - c - Z.of_nat P)
        by lia. lia. }
    eexists seen'', w', _. split; [exact Hloop|].
    split; [by rewrite Ht', Ht, <- app_assoc|]. by rewrite Hcount, Hn.
Qed.

(** C2, as the code has it: against a server that holds [T] items, reports
    [T] as the total and serves pages of [P > 0] items at the offset asked
    for, with no 429 or 5xx answer, a run from the cursor [c0] returns after
    exactly [ceil((T - c0) / P)] search requests when [c0 < T], and after
    exactly one when [c0 >= T] (so after [ceil(T / P)] from an empty
    checkpoint when [T >= 1], and after one when [T = 0]), with the cursor
    at [max c0 T >= T]. A pass whose page has no issues ends the loop at
    once, with nothing but its search request done. *)
Theorem exhaustive_pagination session pk items P w fuel :
  (0 < P)%nat ->
  serves session pk items P ->
  details_served session ->
  Forall keyed items ->
  0 <= startAt (loaded_state w) ->
  (Z.to_nat (if startAt (loaded_state w) <? Z.of_nat (length items)
             then ceil_div (Z.of_nat (length items) - startAt (loaded_state w)) (Z.of_nat P)
             else 1)%Z < fuel)%nat ->
  (exists cursor seen' w' evs,
     scrape_project session fuel pk w = Ok (cursor, seen') w' /\
     Z.of_nat (length items) <= cursor /\
     cursor = Z.max (startAt (loaded_state w)) (Z.of_nat (length items)) /\
     trace w' = trace w ++ evs /\
     Z.of_nat (length (search_requests evs)) =
       if startAt (loaded_state w) <? Z.of_nat (length items)
       then ceil_div (Z.of_nat (length items) - startAt (loaded_state w)) (Z.of_nat P)
       else 1) /\
  (forall c seen v fuel' r resp issues,
     session (requests_made v) (search pk c) = Returns r ->
     status_code r < 400 ->
     json r = Returns resp ->
     py_get resp "issues" (JList []) = Returns issues ->
     truthy issues = false ->
     scrape_loop session (S fuel') pk c seen v =
       Ok (c, seen) (tick (log_event (EvGet (search pk c)) v))).
Proof.
  intros HP Hserves Hd Hkeyed Hc0 Hfuel.
  split; [|intros; by eapply scrape_loop_empty].
  rewrite scrape_project_loop.
  set (c0 := startAt (loaded_state w)) in *.
  set (T := Z.of_nat (length items)) in *.
  destruct (c0 <? T) eqn:Hlt.
  - apply Z.ltb_lt in Hlt.
    assert (0 <= ceil_div (T - c0) (Z.of_nat P)) as Hpos.
    { unfold ceil_div. apply Z.div_pos; lia. }
    destruct (scrape_loop_exhausts session pk items P HP Hserves Hd Hkeyed
                (Z.to_nat (ceil_div (T - c0) (Z.of_nat P))) c0 (loaded_seen w) w fuel)
      as (seen' & w' & evs & Hrun & Ht & Hn); [fold T; lia..|].
    exists T, seen', w', evs. rewrite Hn. split_and!; try done; lia.
  - apply Z.ltb_ge in Hlt.
    destruct fuel as [|fuel]; [simpl in Hfuel; lia|].
    destruct (Hserves (requests_made w) c0)
      as (r & resp & Hs & H200 & Hj & Hissues & _).
    assert (page items P c0 = []) as Hnil.
    { unfold page. rewrite drop_ge; [apply take_nil|]. fold T. lia. }
    rewrite Hnil in Hissues.
    rewrite (scrape_loop_empty session fuel pk c0 (loaded_seen w) w r resp (JList []))
      by (done || lia).
    eexists c0, _, _, [EvGet (search pk c0)]. split_and!; try done; lia.
Qed.

Lemma jira_serves items P pk : serves (jira items P) pk items P.
Proof. intros n c. eexists _, _. by split_and!. Qed.

Lemma jira_details_served items P : details_served (jira items P).
Proof.
  intros n k r [= <-]. split; [done|].
  intros j [= <-]. by destruct k; eexists.
Qed.

Lemma three_issues_keyed : Forall keyed three_issues.
Proof. repeat constructor; by eexists. Qed.

Lemma exhaustive_pagination_witness :
  exists seen' w' evs,
    scrape_project (jira three_issues 2) 3 "HADOOP" fresh_world = Ok (3, seen') w' /\
    trace w' = evs /\
    Z.of_nat (length (search_requests evs)) = ceil_div 3 2.
Proof.
  destruct (exhaustive_pagination (jira three_issues 2) "HADOOP" three_issues 2
              fresh_world 3 ltac:(lia) (jira_serves _ _ _) (jira_details_served _ _)
              three_issues_keyed ltac:(simpl; lia) ltac:(vm_compute; lia))
    as [(cursor & seen' & w' & evs & Hrun & _ & -> & Ht & Hn) _].
  exists seen', w', evs. split; [exact Hrun|]. split; [exact Ht|exact Hn].
Defined.

(** C2, as stated, fails: a source with no item at all ([T = 0]) takes one
    search request, not [ceil(0 / 50) = 0]. *)
Lemma empty_source_takes_one_request :
  length (search_requests (trace (final
    (scrape_project (jira [] 50) 5 "HADOOP" fresh_world)))) = 1%nat /\
  ceil_div 0 50 = 0.
Proof. split; by vm_compute. Qed.

(** ** Rate limiting *)

Lemma retry_after_wait_absent : retry_after_wait None = Returns 60.
Proof. reflexivity. Qed.

Lemma retry_after_wait_not_digits s :
  isdigit s = false -> retry_after_wait (Some s) = Returns 60.
Proof. intros H. unfold retry_after_wait. rewrite H. by rewrite andb_false_r. Qed.

Lemma decimal_is_digit c : is_decimal_char c = true -> is_digit_char c = true.
Proof. unfold is_digit_char. by intros ->. Qed.

Lemma fold_decimal_nonneg cs acc :
  0 <= acc -> forallb is_decimal_char cs = true ->
  0 <= fold_left (fun acc c => 10 * acc + digit_value c) cs acc.
Proof.
  revert acc. induction cs as [|c cs IH]; intros acc Hacc; simpl; [done|].
  intros [Hc Hcs]%andb_true_iff. apply IH; [|done].
  unfold is_decimal_char in Hc. apply andb_true_iff in Hc as [H1%Nat.leb_le _].
  unfold digit_value. lia.
Qed.

(** A header of decimal digits is slept for its value. *)
Lemma retry_after_wait_decimal s :
  s <> "" -> forallb is_decimal_char (list_ascii_of_string s) = true ->
  retry_after_wait (Some s) =
    Returns (fold_left (fun acc c => 10 * acc + digit_value c) (list_ascii_of_string s) 0) /\
  0 <= fold_left (fun acc c => 10 * acc + digit_value c) (list_ascii_of_string s) 0.
Proof.
  intros Hne Hdec. split; [|by apply fold_decimal_nonneg].
  unfold retry_after_wait, isdigit, py_int.
  assert (String.eqb s "" = false) as -> by (by apply String.eqb_neq).
  assert (forallb is_digit_char (list_ascii_of_string s) = true) as ->.
  { apply forallb_forall. intros c Hc. apply decimal_is_digit.
    by apply (proj1 (forallb_forall _ _) Hdec). }
  rewrite Hdec. simpl. destruct s; [done|]. done.
Qed.

(** A search answered with 429 sleeps the wait and asks again at the same
    offset, with the same [seen]. *)
Lemma search_429_retries session fuel pk c seen w r wait :
  session (requests_made w) (search pk c) = Returns r ->
  status_code r = 429 ->
  retry_after_wait (retry_after r) = Returns wait ->
  loop_body session fuel pk c seen w =
    Ok (Next c seen true) (log_event (EvSleep wait) (tick (log_event (EvGet (search pk c)) w))).
Proof.
  intros Hs H429 Hwait. unfold loop_body, mbind, M_bind, session_get, py, time_sleep.
  fold (search pk c). rewrite Hs.
  destruct (decide (status_code r = 429)); [|done]. by rewrite Hwait.
Qed.



(** The search loop retries by [continue]: however many 429 answers come in
    a row, no frame is added. *)
Lemma scrape_loop_throttled n pk c seen : forall k w,
  (requests_made w + k = n)%nat ->
  exists w',
    scrape_loop (throttled n) (S k) pk c seen w = Ok (c, seen) w' /\
    trace w' = trace w ++ retries (search pk c) 60 k ++ [EvGet (search pk c)] /\
    max_stack w' = max_stack w.
Proof.
  induction k as [|k IH]; intros w Hn.
  - rewrite (scrape_loop_empty (throttled n) 0 pk c seen w
               {| status_code := 200; retry_after := None;
                  json := Returns (JDict [("total", JInt 0); ("issues", JList [])]) |}
               (JDict [("total", JInt 0); ("issues", JList [])]) (JList []));
      try done.
    + by eexists.
    + unfold throttled.
      by replace (requests_made w <? n)%nat with false by (symmetry; apply Nat.ltb_ge; lia).
  - remember (S k) as k' eqn:Hk. cbn [scrape_loop]. unfold mbind, M_bind.
    rewrite (search_429_retries (throttled n) k' pk c seen w
               {| status_code := 429; retry_after := None; json := Raises JSONDecodeError |} 60);
      try done.
    2:{ unfold throttled.
        by replace (requests_made w <? n)%nat with true by (symmetry; apply Nat.ltb_lt; lia). }
    subst k'.
    destruct (IH (log_event (EvSleep 60) (tick (log_event (EvGet (search pk c)) w))))
      as (w' & -> & Ht & Hmax); [simpl; lia|].
    eexists. split; [done|]. simpl in *. rewrite Ht, Hmax.
    split; [by rewrite <- !app_assoc|done].
Qed.


(** ** The transform *)

Lemma comments_loop_shaped cs : Forall comment_shaped cs ->
  forall acc, exists ts, comments_loop cs acc = Returns (acc ++ ts).
Proof.
  induction 1 as [|c cs Hc _ IH]; intros acc; simpl.
  { exists []. by rewrite app_nil_r. }
  destruct c as [| | | | |d]; try done. simpl in Hc.
  unfold comment_text. simpl.
  destruct (dict_get "author" d) as [[| | | | |a]|]; try done; simpl;
    match goal with
    | |- exists ts, comments_loop cs ?acc' = _ => destruct (IH acc') as [ts ->]
    end; eexists; by rewrite <- app_assoc.
Qed.

(** [fields.get(k, {}).get(sub)] *)
Lemma get_object f k sub :
  missing_or is_object (dict_get k f) ->
  exists o,
    (py_get (JDict f) k (JDict []) ≫= fun p => py_get p sub JNull) = Returns o /\
    (dict_get k f = None -> o = JNull).
Proof.
  simpl. destruct (dict_get k f) as [[| | | | |d]|]; try done; simpl; intros _.
  - by eexists.
  - by eexists.
Qed.

(** [(fields.get(k) or {}).get(sub)] *)
Lemma get_nullable f k sub :
  missing_or null_or_object (dict_get k f) ->
  exists o,
    (py_get (JDict f) k JNull ≫= fun p => py_get (py_or p (JDict [])) sub JNull) = Returns o /\
    (missing_or_null (dict_get k f) -> o = JNull).
Proof.
  unfold missing_or_null. simpl.
  destruct (dict_get k f) as [[| | | | |d]|]; try done; simpl; intros _.
  - by eexists.
  - unfold py_or. destruct (truthy (JDict d)); simpl; eexists; (split; [done|]);
      by intros [?|?].
  - by eexists.
Qed.

Lemma or_empty_string f k :
  missing_or_null (dict_get k f) ->
  py_or (default JNull (dict_get k f)) (JStr "") = JStr "".
Proof. by intros [->| ->]. Qed.

Lemma fields_object d :
  missing_or is_object (dict_get "fields" d) ->
  exists f,
    py_get (JDict d) "fields" (JDict []) = Returns (JDict f) /\
    forall k, field (JDict d) k = dict_get k f.
Proof.
  simpl. destruct (dict_get "fields" d) as [[| | | | |f]|]; try done; intros _.
  - by exists f.
  - by exists [].
Qed.

Lemma comment_texts f :
  missing_or comment_field_shaped (dict_get "comment" f) ->
  exists ts,
    (py_get (JDict f) "comment" (JDict []) ≫= fun comment =>
     py_get comment "comments" (JList []) ≫= fun comments_data =>
     py_iter comments_data ≫= fun cs => comments_loop cs []) = Returns ts /\
    (dict_get "comment" f = None -> ts = []).
Proof.
  simpl. destruct (dict_get "comment" f) as [[| | | | |cm]|]; try done; simpl.
  2:{ intros _. by exists []. }
  destruct (dict_get "comments" cm) as [[| | | |l|]|]; try done; simpl.
  2:{ intros _. by exists []. }
  intros Hl. destruct (comments_loop_shaped l Hl []) as [ts ->]. by exists ts.
Qed.

(** C6, as the code has it: on a well-shaped record the transform returns,
    and every field that is missing maps to an empty or absent value: the
    empty string for the title and the description, the empty list for the
    labels and the comments, [None] for the others. A null summary,
    description, priority, reporter or assignee maps to the same values. *)
Theorem transform_total_on_well_shaped_records issue_raw :
  well_shaped issue_raw ->
  exists t,
    transform_issue_for_llm issue_raw = Returns t /\
    (missing_or_null (field issue_raw "summary") -> title t = JStr "") /\
    (missing_or_null (field issue_raw "description") -> description t = JStr "") /\
    (missing_or_null (field issue_raw "priority") -> priority (metadata t) = JNull) /\
    (missing_or_null (field issue_raw "reporter") -> reporter (metadata t) = JNull) /\
    (missing_or_null (field issue_raw "assignee") -> assignee (metadata t) = JNull) /\
    (field issue_raw "labels" = None -> labels (metadata t) = JList []) /\
    (field issue_raw "project" = None -> project (metadata t) = JNull) /\
    (field issue_raw "status" = None -> status (metadata t) = JNull) /\
    (field issue_raw "issuetype" = None -> issuetype (metadata t) = JNull) /\
    (field issue_raw "comment" = None -> comments t = []).
Proof.
  destruct issue_raw as [| | | | |d]; try done.
  intros (Hfields & Hcomment & Hproject & Hissuetype & Hstatus & Hpriority & Hreporter
          & Hassignee).
  destruct (fields_object d Hfields) as (f & Hf & Hfield).
  rewrite !Hfield in *. clear Hfield Hfields.
  unfold transform_issue_for_llm. rewrite Hf. clear Hf.
  match goal with
  | |- context [Returns (JDict f) ≫= ?k] =>
      change (Returns (JDict f) ≫= k) with (k (JDict f))
  end.
  cbv beta.
  destruct (get_object f "project" "key" Hproject) as (o_project & Ep & Hp).
  destruct (get_object f "issuetype" "name" Hissuetype) as (o_issuetype & Ei & Hi).
  destruct (get_object f "status" "name" Hstatus) as (o_status & Es & Hs).
  destruct (get_nullable f "priority" "name" Hpriority) as (o_priority & Epr & Hpr).
  destruct (get_nullable f "reporter" "displayName" Hreporter) as (o_reporter & Er & Hr).
  destruct (get_nullable f "assignee" "displayName" Hassignee) as (o_assignee & Ea & Ha).
  rewrite Ep, Ei, Es, Epr, Er, Ea.
  assert (exists ts,
            (comments_data ← py_get (default (JDict []) (dict_get "comment" f))
                                "comments" (JList []);
             cs ← py_iter comments_data; comments_loop cs []) = Returns ts /\
            (dict_get "comment" f = None -> ts = [])) as (ts & Ets & Hts).
  { destruct (dict_get "comment" f) as [[| | | | |cm]|]; try done; simpl.
    2:{ by exists []. }
    simpl in Hcomment.
    destruct (dict_get "comments" cm) as [[| | | |l|]|]; try done; simpl.
    2:{ by exists []. }
    destruct (comments_loop_shaped l Hcomment []) as [ts' ->]. by exists ts'. }
  cbn [mbind PyResult_bind py_get].
  destruct (py_get (default (JDict []) (dict_get "comment" f)) "comments" (JList []))
    as [comments_data|e]; [|done].
  cbn [mbind PyResult_bind] in Ets |- *.
  destruct (py_iter comments_data) as [cs|e]; [|done].
  cbn [mbind PyResult_bind] in Ets |- *. rewrite Ets.
  cbn [mbind PyResult_bind mret PyResult_ret].
  eexists. split; [reflexivity|]. cbn.
  split_and!; try done; try (by apply or_empty_string); by intros ->.
Qed.

Lemma transform_total_on_well_shaped_records_witness :
  well_shaped (detail (KStr "HADOOP-1")) /\
  exists t,
    transform_issue_for_llm (detail (KStr "HADOOP-1")) = Returns t /\
    description t = JStr "" /\ priority (metadata t) = JNull.
Proof.
  assert (well_shaped (detail (KStr "HADOOP-1"))) as Hshape.
  { simpl. by split_and!. }
  split; [exact Hshape|].
  destruct (transform_total_on_well_shaped_records (detail (KStr "HADOOP-1")) Hshape)
    as (t & Ht & _ & Hd & Hp & _).
  exists t. split; [exact Ht|]. split; [apply Hd|apply Hp]; by left.
Defined.

(** C6, as stated, fails: a record whose status is null makes the transform
    raise, where a null priority, reporter or assignee is accepted. *)
Lemma transform_raises_on_null_status :
  transform_issue_for_llm null_status_issue = Raises AttributeError.
Proof. reflexivity. Qed.

(** ** Saving the checkpoint *)

Lemma append_cons c (s t : string) : String c s +:+ t = String c (s +:+ t).
Proof. reflexivity. Qed.

Lemma append_nil_r (s : string) : s +:+ "" = s.
Proof. induction s as [|c s IH]; [done|]. by rewrite append_cons, IH. Qed.

Lemma append_assoc (s1 s2 s3 : string) : (s1 +:+ s2) +:+ s3 = s1 +:+ (s2 +:+ s3).
Proof. induction s1 as [|c s1 IH]; [done|]. by rewrite !append_cons, IH. Qed.

Lemma concat_cons (c : string) (cs : list string) :
  String.concat "" (c :: cs) = c +:+ String.concat "" cs.
Proof. destruct cs; simpl; [by rewrite append_nil_r|done]. Qed.

Lemma concat_app (cs1 cs2 : list string) :
  String.concat "" (cs1 ++ cs2) = String.concat "" cs1 +:+ String.concat "" cs2.
Proof.
  induction cs1 as [|c cs1 IH]; [done|].
  rewrite <- app_comm_cons, !concat_cons, IH. by rewrite append_assoc.
Qed.

Lemma foldl_writes (acc : string) (cs : list string) :
  foldl apply_op (Some acc) (map WriteChunk cs) = Some (acc +:+ String.concat "" cs).
Proof.
  revert acc. induction cs as [|c cs IH]; intros acc.
  { simpl. by rewrite append_nil_r. }
  rewrite concat_cons. simpl foldl. simpl default. rewrite IH. by rewrite append_assoc.
Qed.

Lemma file_after_writes k st before :
  file_after (S k) st before = Some (String.concat "" (take k (state_chunks st))).
Proof.
  unfold file_after, save_state_ops. rewrite firstn_cons.
  change (foldl apply_op before (OpenForWriting :: ?l)) with (foldl apply_op (Some "") l).
  rewrite firstn_map. by rewrite foldl_writes.
Qed.

(** C5, as the code has it: [save_state] overwrites the checkpoint in
    place. Before the save begins the file is the old checkpoint, and once
    all of it is written the file is the text of the new state, whatever it
    held before; in between, from the moment the file is opened, it holds a
    prefix of the new text. *)
Theorem save_state_overwrites_in_place st before :
  file_after 0 st before = before /\
  file_after (length (save_state_ops st)) st before = Some (json_dump st) /\
  forall k, (0 < k)%nat ->
    exists p rest, file_after k st before = Some p /\ json_dump st = p +:+ rest.
Proof.
  split; [done|]. split.
  - unfold save_state_ops.
    change (length (OpenForWriting :: ?l)) with (S (length l)).
    rewrite file_after_writes.
    by rewrite length_map, firstn_all.
  - intros [|k] Hk; [lia|]. rewrite file_after_writes.
    exists (String.concat "" (take k (state_chunks st))),
           (String.concat "" (drop k (state_chunks st))).
    split; [done|]. unfold json_dump.
    by rewrite <- concat_app, take_drop.
Qed.

Lemma save_state_overwrites_in_place_witness :
  (0 < 6)%nat /\
  exists p rest,
    file_after 6 second_checkpoint (Some (json_dump first_checkpoint)) = Some p /\
    json_dump second_checkpoint = p +:+ rest.
Proof.
  split; [lia|].
  destruct (save_state_overwrites_in_place second_checkpoint
              (Some (json_dump first_checkpoint))) as (_ & _ & H).
  apply (H 6%nat). lia.
Defined.

(** C5, as stated, fails: when the process dies right after the file is
    opened, the checkpoint file is empty, which is neither the old
    checkpoint nor the new one; a few chunks later it is the beginning of
    the new one. *)
Lemma crash_during_save_leaves_partial_file :
  file_after 1 second_checkpoint (Some (json_dump first_checkpoint)) = Some "" /\
  Some "" <> Some (json_dump first_checkpoint) /\
  Some "" <> Some (json_dump second_checkpoint) /\
  file_after 6 second_checkpoint (Some (json_dump first_checkpoint))
    <> Some (json_dump first_checkpoint) /\
  file_after 6 second_checkpoint (Some (json_dump first_checkpoint))
    <> Some (json_dump second_checkpoint).
Proof. split_and!; [by vm_compute| by vm_compute..]. Qed.

(** ** Further properties: the wait after a 429 *)










(** ** Further properties: the detail fetch *)






(** ** Further properties: one pass of the loop *)




(** X6: a search that fails for good aborts the run at once: when
    [session.get] raises, or the status is a 4xx other than 429, the run
    raises that exception after this one request, without a sleep, and no
    log and no checkpoint is touched. *)
Theorem failed_search_aborts_the_run session fuel pk c seen w :
  (forall e, session (requests_made w) (search pk c) = Raises e ->
     exists w',
       scrape_loop session (S fuel) pk c seen w = Exc e w' /\
       trace w' = trace w ++ [EvGet (search pk c)] /\ disk w' = disk w) /\
  (forall r, session (requests_made w) (search pk c) = Returns r ->
     400 <= status_code r < 500 -> status_code r <> 429 ->
     exists w',
       scrape_loop session (S fuel) pk c seen w = Exc (HTTPError (status_code r)) w' /\
       trace w' = trace w ++ [EvGet (search pk c)] /\ disk w' = disk w).
Proof.
  split.
  - intros e Hs. cbn [scrape_loop].
    unfold loop_body, mbind, M_bind, session_get, py. fold (search pk c). rewrite Hs.
    by eexists.
  - intros r Hs H4xx H429. cbn [scrape_loop].
    unfold loop_body, mbind, M_bind, session_get, py. fold (search pk c). rewrite Hs.
    destruct (decide (status_code r = 429)); [done|].
    destruct (decide (500 <= status_code r)); [lia|].
    unfold raise_for_status.
    replace (400 <=? status_code r) with true by (symmetry; apply Z.leb_le; lia).
    replace (status_code r <? 600) with true by (symmetry; apply Z.ltb_lt; lia).
    by eexists.
Qed.

Lemma failed_search_aborts_the_run_witness :
  exists w',
    scrape_loop forbidden 1 "HADOOP" 0 ∅ fresh_world = Exc (HTTPError 403) w' /\
    trace w' = [EvGet (search "HADOOP" 0)] /\ disk w' = disk fresh_world.
Proof.
  destruct (failed_search_aborts_the_run forbidden 0 "HADOOP" 0 ∅ fresh_world) as [_ H].
  apply (H {| status_code := 403; retry_after := None; json := Raises JSONDecodeError |});
    [reflexivity | simpl; lia | simpl; lia].
Defined.

Lemma fetch_issue_fails session fuel key w :
  details_fail session ->
  exists e w' evs,
    fetch_issue session (S fuel) key w = Exc e w' /\
    evolves w evs w' /\ Forall network evs.
Proof.
  intros Hd.
  destruct (fetch_issue_spec session (S fuel) key w) as (evs & Hev & Hdet & _).
  apply detail_events_network in Hdet.
  revert Hev. cbn [fetch_issue].
  unfold call, mbind, M_bind, session_get, py. simpl.
  specialize (Hd (requests_made w) key).
  destruct (session (requests_made w) (IssueRequest key)) as [r|e]; simpl.
  2:{ intros Hev. by eexists _, _, evs. }
  destruct Hd as [H429 Hfail].
  destruct (decide (status_code r = 429)); [done|].
  unfold raise_for_status.
  destruct ((400 <=? status_code r) && (status_code r <? 600))%bool eqn:Hst; simpl.
  { intros Hev. by eexists _, _, evs. }
  destruct Hfail as [H|[e He]].
  - apply andb_false_iff in Hst as [?%Z.leb_gt|?%Z.ltb_ge]; lia.
  - rewrite He. simpl. intros Hev. by eexists _, _, evs.
Qed.

Lemma for_issues_all_fail session fuel its :
  details_fail session -> Forall keyed its ->
  forall seen raw tr w, exists w' evs,
    for_issues session (S fuel) its seen raw tr w = Ok (seen, raw, tr) w' /\
    evolves w evs w' /\ Forall network evs.
Proof.
  intros Hd. remember (S fuel) as f eqn:Hf.
  induction 1 as [|it its [k Hk] _ IH]; intros seen raw tr w.
  { exists w, []. split; [done|]. split; [apply evolves_refl|constructor]. }
  simpl. unfold mbind, M_bind, py, try_except.
  destruct (py_get it "key" JNull) as [kj|e]; [|done]. simpl in Hk. rewrite Hk.
  destruct (decide (k ∈ seen)); [apply IH|].
  destruct (fetch_issue_fails session fuel k w Hd) as (e & w1 & evs1 & Hrun & Hev1 & Hnet1).
  rewrite <- Hf in Hrun. rewrite Hrun.
  destruct (IH seen raw tr w1) as (w' & evs2 & Hrun2 & Hev2 & Hnet2).
  exists w', (evs1 ++ evs2). split; [done|].
  split; [by eapply evolves_trans|by apply Forall_app].
Qed.

(** X7: an issue whose detail fetch fails is skipped, not retried: when the
    detail fetch of every issue of a page fails, the pass still returns,
    appends nothing to either log, and saves a checkpoint whose cursor is
    past the page and whose [seen] list is the one it started with. *)
Theorem failed_details_are_skipped_and_cursor_moves_on
    session fuel pk c seen w r resp its base total :
  details_fail session -> Forall keyed its ->
  session (requests_made w) (search pk c) = Returns r ->
  status_code r = 200 ->
  json r = Returns resp ->
  py_get resp "issues" (JList []) = Returns (JList its) ->
  its <> [] ->
  reported_offset resp c = Returns base ->
  reported_total resp (base + Z.of_nat (length its)) = Returns total ->
  exists w',
    loop_body session (S fuel) pk c seen w =
      Ok (Next (base + Z.of_nat (length its)) seen
            (negb (total <=? base + Z.of_nat (length its)))) w' /\
    disk w' =
      store_state {| startAt := base + Z.of_nat (length its);
                     seen_issue_keys := elements seen |} (disk w).
Proof.
  intros Hd Hits Hs H200 Hj Hissues Hne Hbase Htotal.
  unfold loop_body. unfold mbind at 1, M_bind at 1, session_get, py.
  fold (search pk c). rewrite Hs.
  destruct (decide (status_code r = 429)); [lia|].
  destruct (decide (500 <= status_code r)); [lia|].
  unfold mbind at 1, M_bind at 1, raise_for_status. rewrite H200. simpl.
  unfold mbind at 1, M_bind at 1, py. rewrite Hj.
  unfold mbind at 1, M_bind at 1, py. rewrite Hissues.
  assert (truthy (JList its) = true) as -> by (by destruct its).
  cbn [negb]. cbv beta iota.
  unfold mbind at 1, M_bind at 1, py. cbn [py_iter]. cbv beta iota.
  unfold mbind at 1, M_bind at 1.
  destruct (for_issues_all_fail session fuel its Hd Hits seen [] []
              (tick (log_event (EvGet (search pk c)) w)))
    as (w2 & evs & -> & Hev & Hnet).
  pose proof (evolves_network_disk _ _ _ Hev Hnet) as Hdisk. simpl in Hdisk.
  unfold mbind at 1, M_bind at 1. simpl length. cbn [Nat.eqb negb]. cbv beta iota.
  unfold mret at 1, M_ret at 1.
  unfold mbind at 1, M_bind at 1, py. fold (reported_offset resp c). rewrite Hbase.
  unfold mbind at 1, M_bind at 1, py. cbn [py_len]. cbv beta iota.
  unfold mbind at 1, M_bind at 1, save_state.
  unfold mbind at 1, M_bind at 1, py.
  change (py_get resp "total" _ ≫= py_int_operand)
    with (reported_total resp (base + Z.of_nat (length its))).
  rewrite Htotal. eexists. split; [done|]. simpl. by rewrite Hdisk.
Qed.

Lemma jira_without_details_fail : details_fail jira_without_details.
Proof. intros n k. simpl. split; [lia|]. left. lia. Qed.

Lemma failed_details_are_skipped_and_cursor_moves_on_witness :
  exists w',
    loop_body jira_without_details 1 "HADOOP" 0 ∅ fresh_world = Ok (Next 3 ∅ false) w' /\
    disk w' = {| raw_file := None; transformed_file := None;
                 state_file := Some {| startAt := 3; seen_issue_keys := [] |} |}.
Proof.
  destruct (failed_details_are_skipped_and_cursor_moves_on
              jira_without_details 0 "HADOOP" 0 ∅ fresh_world
              {| status_code := 200; retry_after := None;
                 json := Returns (search_body three_issues 50 0) |}
              (search_body three_issues 50 0) three_issues 0 3
              jira_without_details_fail three_issues_keyed
              eq_refl eq_refl eq_refl eq_refl ltac:(done) eq_refl eq_refl)
    as (w' & Hrun & Hdisk).
  exists w'. split; [exact Hrun|exact Hdisk].
Defined.

(** X8: when the loop over the issues of a page raises (a summary that is
    no object, a key that cannot be a set element, a record the transform
    rejects), the pass raises the same exception and the page leaves no
    mark on the files: the records fetched before it are not appended and
    the checkpoint is not saved. *)
Theorem exception_in_the_issues_loop_leaves_the_files
    session fuel pk c seen w r resp issues its e w2 :
  session (requests_made w) (search pk c) = Returns r ->
  status_code r <> 429 -> status_code r < 400 ->
  json r = Returns resp ->
  py_get resp "issues" (JList []) = Returns issues ->
  truthy issues = true ->
  py_iter issues = Returns its ->
  for_issues session fuel its seen [] [] (tick (log_event (EvGet (search pk c)) w))
    = Exc e w2 ->
  loop_body session fuel pk c seen w = Exc e w2 /\ disk w2 = disk w.
Proof.
  intros Hs H429 H400 Hj Hissues Htruthy Hits Hfor. split.
  - unfold loop_body. unfold mbind, M_bind, session_get, py.
    fold (search pk c). rewrite Hs.
    destruct (decide (status_code r = 429)); [lia|].
    destruct (decide (500 <= status_code r)); [lia|].
    unfold raise_for_status.
    replace (400 <=? status_code r) with false by (symmetry; apply Z.leb_gt; lia).
    simpl. rewrite Hj, Hissues, Htruthy. simpl. by rewrite Hits, Hfor.
  - destruct (for_issues_spec session fuel its seen [] []
                (tick (log_event (EvGet (search pk c)) w))) as (evs & Hev & Hnet & _).
    rewrite Hfor in Hev. simpl in Hev.
    by rewrite (evolves_network_disk _ _ _ Hev Hnet).
Qed.

Lemma exception_in_the_issues_loop_leaves_the_files_witness :
  exists w2,
    loop_body jira_with_null_status 1 "HADOOP" 0 ∅ fresh_world = Exc AttributeError w2 /\
    disk w2 = disk fresh_world.
Proof.
  eexists.
  apply (exception_in_the_issues_loop_leaves_the_files
           jira_with_null_status 1 "HADOOP" 0 ∅ fresh_world
           {| status_code := 200; retry_after := None;
              json := Returns (search_body three_issues 50 0) |}
           (search_body three_issues 50 0) (JList three_issues) three_issues);
    [reflexivity | simpl; lia | simpl; lia | reflexivity | reflexivity | reflexivity
    | reflexivity | reflexivity].
Defined.

(** ** Further properties: a whole run *)

Lemma scrape_loop_returns_checkpoint session fuel pk :
  forall c seen w res w',
    startAt (loaded_state w) = c -> loaded_seen w = seen ->
    scrape_loop session fuel pk c seen w = Ok res w' ->
    startAt (loaded_state w') = fst res /\ loaded_seen w' = snd res.
Proof.
  induction fuel as [|fuel IH]; intros c seen w res w' Hc Hseen; [done|].
  simpl. unfold mbind, M_bind.
  destruct (loop_body_shape session fuel pk c seen w)
    as (net & nr & nt & seen' & sv & Hev & Hpass & Hres).
  destruct (loop_body session fuel pk c seen w) as [ctl w1|e w1|w1]; [|done..].
  simpl in Hev. specialize (Hres ctl w1 eq_refl).
  destruct Hpass as (Hnet & _ & _ & _ & _ & _ & Hsave).
  assert (sv = None -> nr = [] -> disk w1 = disk w) as Hsame.
  { intros -> ->. simpl in Hev. rewrite app_nil_r in Hev.
    apply (evolves_network_disk _ _ _ Hev). by constructor. }
  assert (forall st, sv = Some st ->
            startAt (loaded_state w1) = startAt st /\ loaded_seen w1 = seen') as Hpage.
  { intros st ->. destruct (Hsave st eq_refl) as [Hst _].
    unfold loaded_seen, loaded_state.
    rewrite (evolves_saved_last w (EvGet (search pk c) :: net ++ page_writes nr nt) st w1).
    - split; [done|]. by apply seen_of_elements.
    - simpl in *. by rewrite <- app_assoc. }
  destruct ctl as [|c' s'' more]; simpl in Hres.
  - destruct Hres as (-> & -> & _). intros [= <- <-]. simpl.
    unfold loaded_seen, loaded_state in *. by rewrite (Hsame eq_refl eq_refl).
  - destruct sv as [st|].
    + destruct Hres as (-> & -> & _). destruct (Hpage st eq_refl) as [Hc1 Hs1].
      destruct more; [by eapply IH|]. by intros [= <- <-].
    + destruct Hres as (-> & -> & -> & -> & _).
      apply IH; unfold loaded_seen, loaded_state in *; by rewrite (Hsame eq_refl eq_refl).
Qed.



(** X10: idempotence. Against a server that serves the same [T] items in
    pages of [P], a run that has finished has left a checkpoint from which
    the next run asks one search request, gets an empty page and returns
    with the same cursor and [seen] set, leaving the three files as they
    are and fetching no detail. *)
Theorem second_run_changes_nothing session pk items P w fuel fuel2 :
  (0 < P)%nat ->
  serves session pk items P ->
  details_served session ->
  Forall keyed items ->
  0 <= startAt (loaded_state w) ->
  (Z.to_nat (if startAt (loaded_state w) <? Z.of_nat (length items)
             then ceil_div (Z.of_nat (length items) - startAt (loaded_state w)) (Z.of_nat P)
             else 1)%Z < fuel)%nat ->
  exists res w1 w2,
    scrape_project session fuel pk w = Ok res w1 /\
    scrape_project session (S fuel2) pk w1 = Ok res w2 /\
    trace w2 = trace w1 ++ [EvGet (search pk (fst res))] /\
    disk w2 = disk w1.
Proof.
  intros HP Hserves Hd Hkeyed Hc0 Hfuel.
  set (c0 := startAt (loaded_state w)) in *.
  set (T := Z.of_nat (length items)) in *.
  assert (exists res w1,
            scrape_project session fuel pk w = Ok res w1 /\ T <= fst res) as (res & w1 & Hrun & HT).
  { rewrite scrape_project_loop. fold c0. destruct (c0 <? T) eqn:Hlt.
    - apply Z.ltb_lt in Hlt.
      assert (0 <= ceil_div (T - c0) (Z.of_nat P)) as Hpos.
      { unfold ceil_div. apply Z.div_pos; lia. }
      destruct (scrape_loop_exhausts session pk items P HP Hserves Hd Hkeyed
                  (Z.to_nat (ceil_div (T - c0) (Z.of_nat P))) c0 (loaded_seen w) w fuel)
        as (seen' & w' & evs & Hrun & _); [fold T; lia..|].
      eexists _, _. split; [exact Hrun|]. simpl. fold T. lia.
    - apply Z.ltb_ge in Hlt.
      destruct fuel as [|fuel]; [simpl in Hfuel; lia|].
      destruct (Hserves (requests_made w) c0) as (r & resp & Hs & H200 & Hj & Hissues & _).
      assert (page items P c0 = []) as Hnil.
      { unfold page. rewrite drop_ge; [apply take_nil|]. fold T. lia. }
      rewrite Hnil in Hissues.
      rewrite (scrape_loop_empty session fuel pk c0 (loaded_seen w) w r resp (JList []))
        by (done || lia).
      eexists _, _. split; [done|]. simpl. lia. }
  destruct res as [c seen]. simpl in HT.
  pose proof Hrun as Hloop. rewrite scrape_project_loop in Hloop.
  destruct (scrape_loop_returns_checkpoint session fuel pk _ _ _ _ _ eq_refl eq_refl Hloop)
    as [Hc Hseen]. simpl in Hc, Hseen.
  destruct (Hserves (requests_made w1) c) as (r & resp & Hs & H200 & Hj & Hissues & _).
  assert (page items P c = []) as Hnil.
  { unfold page. rewrite drop_ge; [apply take_nil|]. fold T. lia. }
  rewrite Hnil in Hissues.
  exists (c, seen), w1, (tick (log_event (EvGet (search pk c)) w1)).
  split; [exact Hrun|]. split; [|done].
  rewrite scrape_project_loop, Hc, Hseen.
  by rewrite (scrape_loop_empty session fuel2 pk c seen w1 r resp (JList []))
    by (done || lia).
Qed.

Lemma second_run_changes_nothing_witness :
  exists res w1 w2,
    scrape_project (jira three_issues 2) 3 "HADOOP" fresh_world = Ok res w1 /\
    scrape_project (jira three_issues 2) 1 "HADOOP" w1 = Ok res w2 /\
    disk w2 = disk w1.
Proof.
  destruct (second_run_changes_nothing (jira three_issues 2) "HADOOP" three_issues 2
              fresh_world 3 0 ltac:(lia) (jira_serves _ _ _) (jira_details_served _ _)
              three_issues_keyed ltac:(simpl; lia) ltac:(vm_compute; lia))
    as (res & w1 & w2 & H1 & H2 & _ & Hd).
  exists res, w1, w2. split; [exact H1|]. split; [exact H2|exact Hd].
Defined.

Lemma asks_at_checkpoint_quiet pk c evs rest :
  Forall quiet evs ->
  asks_at_checkpoint pk c (evs ++ rest) <-> asks_at_checkpoint pk c rest.
Proof.
  induction 1 as [|e evs He _ IH]; [done|].
  simpl. destruct e as [[p c' m|k]|s|p records|st]; try done.
Qed.

Lemma network_quiet net :
  Forall network net -> search_requests net = [] -> Forall quiet net.
Proof.
  induction 1 as [|e net He _ IH]; [constructor|].
  destruct e as [[p c' m|k]|s|p records|st]; try done; simpl; intros Hs;
    constructor; auto.
Qed.

Lemma page_writes_quiet nr nt : Forall quiet (page_writes nr nt).
Proof. unfold page_writes. destruct (negb _); by repeat constructor. Qed.

Lemma run_shape_asks_at_checkpoint session pk c seen evs :
  run_shape session pk c seen evs -> asks_at_checkpoint pk c evs.
Proof.
  induction 1 as [|n c seen net nr nt seen' sv evs Hpass Hlast _ IH]; [done|].
  destruct Hpass as (Hnet & Hsearch & _).
  simpl. split; [done|]. split; [done|]. split; [done|].
  rewrite (asks_at_checkpoint_quiet pk c net) by (by apply network_quiet).
  rewrite (asks_at_checkpoint_quiet pk c (page_writes nr nt)) by apply page_writes_quiet.
  by destruct sv.
Qed.

(** X11: every search request of a run is for the project of the run, with
    the page size 50, at the cursor of the checkpoint on disk at that
    moment: the loaded cursor until the first save, the cursor last saved
    after it. A run killed between two passes and started again asks the
    request the first run was about to ask. *)
Theorem search_requests_follow_the_checkpoint session fuel pk w :
  exists evs,
    evolves w evs (final (scrape_project session fuel pk w)) /\
    asks_at_checkpoint pk (startAt (loaded_state w)) evs.
Proof.
  rewrite scrape_project_loop.
  destruct (scrape_loop_shape session fuel pk (startAt (loaded_state w)) (loaded_seen w) w)
    as (evs & Hev & Hrun).
  exists evs. split; [done|]. by eapply run_shape_asks_at_checkpoint.
Qed.

(** ** Further properties: the files *)

(** X12: [write_jsonl] appends and nothing else. Two calls on one path
    leave the files as one call with the two batches joined (the first call
    creates the file when it is missing, even for an empty batch); the lines
    that were there stay in front, in order; the other log and the
    checkpoint are not touched. *)
Theorem write_jsonl_appends_in_order_and_composes path a b w :
  disk (final (write_jsonl path b (final (write_jsonl path a w)))) =
    disk (final (write_jsonl path (a ++ b) w)) /\
  lines path (disk (final (write_jsonl path b (final (write_jsonl path a w))))) =
    lines path (disk w) ++ a ++ b /\
  file path (disk (final (write_jsonl path a w))) = Some (lines path (disk w) ++ a) /\
  file (other_log path) (disk (final (write_jsonl path a w))) =
    file (other_log path) (disk w) /\
  state_file (disk (final (write_jsonl path a w))) = state_file (disk w).
Proof.
  unfold write_jsonl, final, lines, append_records. simpl.
  destruct (disk w) as [rf tf sf]. destruct path; simpl.
  - destruct rf; simpl; rewrite <- ?app_assoc; by split_and!.
  - destruct tf; simpl; rewrite <- ?app_assoc; by split_and!.
Qed.

Lemma string_length_app (s t : string) :
  String.length (s +:+ t) = (String.length s + String.length t)%nat.
Proof.
  induction s as [|c s IH]; [done|]. rewrite append_cons. simpl. by rewrite IH.
Qed.

Lemma concat_ends_with_brace (cs : list string) :
  (0 < String.length (String.concat "" (cs ++ ["}"])))%nat.
Proof. rewrite concat_app, string_length_app. simpl. lia. Qed.

Lemma state_chunks_end st :
  exists cs, state_chunks st = cs ++ ["}"] /\
             length (state_chunks st) = S (length cs).
Proof.
  exists ([ "{"; NL +:+ "  "; DQ +:+ "startAt" +:+ DQ; ": "; pretty (startAt st);
            "," +:+ NL +:+ "  "; DQ +:+ "seen_issue_keys" +:+ DQ; ": "]
          ++ list_chunks (seen_issue_keys st) ++ [NL]).
  unfold state_chunks. split.
  - by rewrite <- !app_assoc.
  - rewrite !length_app. simpl. lia.
Qed.

(** X13: a save that is cut short is never mistaken for a complete one: from
    the moment the checkpoint file is opened until its last chunk is
    written, the file is strictly shorter than the text of the new
    checkpoint (it is empty right after the open), whatever state is saved
    and whatever the file held. *)
Theorem interrupted_save_is_shorter_than_the_checkpoint st before k :
  (0 < k < length (save_state_ops st))%nat ->
  exists p,
    file_after k st before = Some p /\
    (String.length p < String.length (json_dump st))%nat.
Proof.
  intros [Hk Hlen]. destruct k as [|k]; [lia|].
  rewrite file_after_writes. eexists. split; [done|].
  unfold save_state_ops in Hlen.
  change (length (OpenForWriting :: ?l)) with (S (length l)) in Hlen.
  rewrite length_map in Hlen.
  destruct (state_chunks_end st) as (cs & Hcs & Hn).
  unfold json_dump.
  rewrite <- (take_drop k (state_chunks st)) at 2.
  rewrite concat_app, string_length_app.
  assert (0 < String.length (String.concat "" (drop k (state_chunks st))))%nat; [|lia].
  rewrite Hcs, drop_app_le by lia. apply concat_ends_with_brace.
Qed.

Lemma interrupted_save_is_shorter_than_the_checkpoint_witness :
  (0 < 1 < length (save_state_ops second_checkpoint))%nat /\
  exists p,
    file_after 1 second_checkpoint (Some (json_dump first_checkpoint)) = Some p /\
    (String.length p < String.length (json_dump second_checkpoint))%nat.
Proof.
  assert (0 < 1 < length (save_state_ops second_checkpoint))%nat as H
    by (vm_compute; lia).
  split; [exact H|].
  exact (interrupted_save_is_shorter_than_the_checkpoint second_checkpoint
           (Some (json_dump first_checkpoint)) 1 H).
Defined.

(** ** Further properties: the transform *)

Lemma comments_loop_inv cs : forall acc ts,
  comments_loop cs acc = Returns ts ->
  exists new, ts = acc ++ new /\ Forall2 (fun c t => comment_text c = Returns t) cs new.
Proof.
  induction cs as [|c cs IH]; intros acc ts; simpl.
  { intros [= <-]. exists []. by rewrite app_nil_r. }
  destruct (comment_text c) as [t|e] eqn:Ht; simpl; [|done].
  intros Hloop. destruct (IH _ _ Hloop) as (new & -> & Hall).
  exists (t :: new). rewrite <- app_assoc. split; [done|]. by constructor.
Qed.

(** What a returned record is made of. *)
Lemma transform_inv issue_raw t :
  transform_issue_for_llm issue_raw = Returns t ->
  exists fields comment comments_data cs s d,
    py_get issue_raw "fields" (JDict []) = Returns fields /\
    py_get fields "comment" (JDict []) = Returns comment /\
    py_get comment "comments" (JList []) = Returns comments_data /\
    py_iter comments_data = Returns cs /\
    comments_loop cs [] = Returns (comments t) /\
    py_get fields "summary" JNull = Returns s /\ title t = py_or s (JStr "") /\
    py_get fields "description" JNull = Returns d /\ description t = py_or d (JStr "") /\
    py_get issue_raw "key" JNull = Returns (issue_key (metadata t)) /\
    py_get issue_raw "id" JNull = Returns (raw_issue_id t) /\
    summarization_input (summarization (derived t)) =
      [Lit "Title: "; Fmt (title t); Lit (NL +:+ NL +:+ "Description:" +:+ NL);
       Fmt (description t); Lit (NL +:+ NL +:+ "Comments:" +:+ NL)]
      ++ str_join NL (comments t) /\
    qna_context (qna (derived t)) =
      [Fmt (title t); Lit (NL +:+ NL); Fmt (description t); Lit (NL +:+ NL)]
      ++ str_join NL (comments t) /\
    summarization_task (summarization (derived t)) = "summarization" /\
    summarization_output (summarization (derived t)) = "" /\
    qna_task (qna (derived t)) = "qa" /\
    qa_pairs (qna (derived t)) = [].
Proof.
  unfold transform_issue_for_llm. unfold mbind, PyResult_bind, mret, PyResult_ret.
  intros H. repeat case_match; try done. simplify_eq. simpl.
  eexists _, _, _, _, _, _. by split_and!.
Qed.

(** X14: the comments keep their order. When the transform returns, the
    record it returns has one text per comment of the raw record, in the
    order of the raw record, and each text is the one built from that
    comment (author's display name, creation time, body). *)
Theorem comments_are_transformed_one_for_one_in_order issue_raw comment cs t :
  field issue_raw "comment" = Some comment ->
  py_get comment "comments" (JList []) = Returns (JList cs) ->
  transform_issue_for_llm issue_raw = Returns t ->
  Forall2 (fun c line => comment_text c = Returns line) cs (comments t) /\
  length (comments t) = length cs.
Proof.
  intros Hfield Hcs Ht.
  destruct (transform_inv _ _ Ht)
    as (fields & comment' & cd & cs' & s & d & Hf & Hc & Hcd & Hit & Hloop & _).
  destruct issue_raw as [| | | | |rec]; try done. simpl in Hfield, Hf.
  destruct (dict_get "fields" rec) as [[| | | | |f]|]; try done.
  simpl in Hf. injection Hf as <-. simpl in Hc. rewrite Hfield in Hc.
  simpl in Hc. injection Hc as <-. rewrite Hcs in Hcd. injection Hcd as <-.
  simpl in Hit. injection Hit as <-.
  destruct (comments_loop_inv _ _ _ Hloop) as (new & -> & Hall). simpl.
  split; [done|]. symmetry. by eapply Forall2_length.
Qed.

Lemma comments_are_transformed_one_for_one_in_order_witness :
  exists t,
    transform_issue_for_llm two_comments_issue = Returns t /\
    length (comments t) = 2%nat.
Proof.
  destruct (transform_issue_for_llm two_comments_issue) as [t|e] eqn:Ht;
    [|by vm_compute in Ht].
  exists t. split; [reflexivity|].
  destruct (comments_are_transformed_one_for_one_in_order two_comments_issue _ _ t
              eq_refl eq_refl Ht) as [_ Hlen].
  exact Hlen.
Defined.

(** X15: the derived views are views of the same record. Whenever the
    transform returns, the summarization input and the question-answering
    context it returns are built from the title, the description and the
    comments it returns (the comments joined by newlines), the two tasks
    are named "summarization" and "qa" with an empty output and no
    question-answer pair, and the key and the id are those of the raw
    record. *)
Theorem derived_views_are_built_from_the_returned_fields issue_raw t :
  transform_issue_for_llm issue_raw = Returns t ->
  summarization_input (summarization (derived t)) =
    [Lit "Title: "; Fmt (title t); Lit (NL +:+ NL +:+ "Description:" +:+ NL);
     Fmt (description t); Lit (NL +:+ NL +:+ "Comments:" +:+ NL)]
    ++ str_join NL (comments t) /\
  qna_context (qna (derived t)) =
    [Fmt (title t); Lit (NL +:+ NL); Fmt (description t); Lit (NL +:+ NL)]
    ++ str_join NL (comments t) /\
  summarization_task (summarization (derived t)) = "summarization" /\
  summarization_output (summarization (derived t)) = "" /\
  qna_task (qna (derived t)) = "qa" /\
  qa_pairs (qna (derived t)) = [] /\
  py_get issue_raw "key" JNull = Returns (issue_key (metadata t)) /\
  py_get issue_raw "id" JNull = Returns (raw_issue_id t).
Proof.
  intros Ht.
  destruct (transform_inv _ _ Ht)
    as (fields & comment & cd & cs & s & d & _ & _ & _ & _ & _ & _ & _ & _ & _
        & Hkey & Hid & H1 & H2 & H3 & H4 & H5 & H6).
  by split_and!.
Qed.

Lemma derived_views_are_built_from_the_returned_fields_witness :
  exists t,
    transform_issue_for_llm two_comments_issue = Returns t /\
    issue_key (metadata t) = JStr "HADOOP-1" /\ raw_issue_id t = JNull.
Proof.
  destruct (transform_issue_for_llm two_comments_issue) as [t|e] eqn:Ht;
    [|by vm_compute in Ht].
  exists t. split; [reflexivity|].
  destruct (derived_views_are_built_from_the_returned_fields two_comments_issue t Ht)
    as (_ & _ & _ & _ & _ & _ & Hkey & Hid).
  injection Hkey as <-. injection Hid as <-. split; reflexivity.
Defined.



(** X17: what the transform rejects before it reads any field: a record
    that is no object, a [fields] or a [comment] that is present and no
    object (null included) raise [AttributeError]; [comments] that are
    null, a number or a boolean raise [TypeError]. *)
Theorem transform_rejects_values_that_are_not_objects :
  (forall v, ~ is_object v -> transform_issue_for_llm v = Raises AttributeError) /\
  (forall d v, dict_get "fields" d = Some v -> ~ is_object v ->
     transform_issue_for_llm (JDict d) = Raises AttributeError) /\
  (forall d v, field (JDict d) "comment" = Some v -> ~ is_object v ->
     transform_issue_for_llm (JDict d) = Raises AttributeError) /\
  (forall d cm v, field (JDict d) "comment" = Some (JDict cm) ->
     dict_get "comments" cm = Some v ->
     match v with JNull | JBool _ | JInt _ => True | _ => False end ->
     transform_issue_for_llm (JDict d) = Raises TypeError).
Proof.
  split_and!.
  - intros v Hv. destruct v; try done; by destruct Hv.
  - intros d v Hf Hv. unfold transform_issue_for_llm. simpl. rewrite Hf. simpl.
    destruct v; try done; by destruct Hv.
  - intros d v Hf Hv. unfold transform_issue_for_llm. simpl in *.
    destruct (dict_get "fields" d) as [[| | | | |f]|]; try done. simpl. rewrite Hf. simpl.
    destruct v; try done; by destruct Hv.
  - intros d cm v Hf Hc Hv. unfold transform_issue_for_llm. simpl in *.
    destruct (dict_get "fields" d) as [[| | | | |f]|]; try done. simpl. rewrite Hf. simpl.
    rewrite Hc. simpl. by destruct v.
Qed.

Lemma transform_rejects_values_that_are_not_objects_witness :
  transform_issue_for_llm (JList []) = Raises AttributeError /\
  transform_issue_for_llm (JDict [("fields", JNull)]) = Raises AttributeError.
Proof.
  destruct transform_rejects_values_that_are_not_objects as (H1 & H2 & _).
  split.
  - apply H1. intros H. exact H.
  - apply (H2 [("fields", JNull)] JNull eq_refl). intros H. exact H.
Defined.

(** ** Further properties: [main] *)

Lemma visits_ext m1 m projects evs :
  (forall q, q ∈ projects -> disk_of q m1 = disk_of q m) ->
  visits m1 projects evs -> visits m projects evs.
Proof.
  revert evs. induction projects as [|p rest IH]; intros evs Hsame; [done|].
  simpl. intros (run & later & -> & Hrest).
  exists run, later. rewrite <- (Hsame p) by (by left). split; [done|].
  apply IH; [|done]. intros q Hq. apply Hsame. by right.
Qed.

Lemma disk_of_leave_ne p q w m : p <> q -> disk_of q (leave p w m) = disk_of q m.
Proof. intros Hne. unfold disk_of, leave. simpl. by rewrite lookup_insert_ne. Qed.

Lemma main_loop_visits session fuel projects : forall m m',
  NoDup projects ->
  main_loop session (S fuel) projects m = Finished m' ->
  exists evs,
    trace (process m') = trace (process m) ++ evs /\ visits m projects evs.
Proof.
  induction projects as [|p rest IH]; intros m m' Hnd.
  { intros [= <-]. exists []. by rewrite app_nil_r. }
  apply NoDup_cons in Hnd as [Hp Hnd].
  cbn [main_loop]. rewrite scrape_project_loop.
  destruct (scrape_loop_first_request session fuel p
              (startAt (loaded_state (enter p m))) (loaded_seen (enter p m)) (enter p m))
    as (run & Hrun).
  assert (forall w', trace w' = trace (enter p m) ++
                       EvGet (search p (startAt (loaded_state (enter p m)))) :: run ->
            main_loop session (S fuel) rest (leave p w' m) = Finished m' ->
            exists evs, trace (process m') = trace (process m) ++ evs /\
                        visits m (p :: rest) evs) as Hnext.
  { intros w' Ht Hmain.
    destruct (IH _ _ Hnd Hmain) as (later & Ht' & Hvisits).
    exists (EvGet (search p (startAt (loaded_state (enter p m)))) :: run ++ later).
    split.
    - rewrite Ht'. simpl. rewrite Ht. simpl. by rewrite <- app_assoc.
    - exists run, later. split; [done|].
      apply (visits_ext (leave p w' m)); [|done].
      intros q Hq. apply disk_of_leave_ne. by intros ->. }
  destruct (scrape_loop session (S fuel) p _ _ (enter p m)) as [res w'|e w'|w'];
    simpl in Hrun; [by apply Hnext..|done].
Qed.

(** X18: failure isolation. When [main] returns, every project of the list
    has been scraped, in the order of the list, whatever the projects
    before it raised: the trace is, for each project in turn, the search
    request at the cursor of that project's own checkpoint followed by the
    rest of its run. *)
Theorem main_scrapes_every_project_in_order session fuel m m' :
  main session (S fuel) m = Finished m' ->
  exists evs,
    trace (process m') = trace (process m) ++ evs /\ visits m PROJECTS evs.
Proof.
  apply main_loop_visits. unfold PROJECTS.
  repeat (apply NoDup_cons; split; [set_solver|]). constructor.
Qed.

Lemma main_scrapes_every_project_in_order_witness :
  exists m',
    main forbidden 1 fresh_machine = Finished m' /\
    trace (process m') =
      [EvGet (search "HADOOP" 0); EvGet (search "SPARK" 0); EvGet (search "KAFKA" 0)].
Proof.
  destruct (main forbidden 1 fresh_machine) as [m'|m'] eqn:Hmain;
    [|by vm_compute in Hmain].
  exists m'. split; [reflexivity|].
  destruct (main_scrapes_every_project_in_order forbidden 0 fresh_machine m' Hmain)
    as (evs & Ht & _).
  vm_compute in Hmain. injection Hmain as <-. reflexivity.
Defined.

Lemma main_loop_touches_listed_projects session fuel projects : forall m p,
  p ∉ projects ->
  disks (machine_of (main_loop session fuel projects m)) !! p = disks m !! p.
Proof.
  induction projects as [|q rest IH]; intros m p Hp; [done|].
  apply not_elem_of_cons in Hp as [Hne Hp].
  cbn [main_loop].
  destruct (scrape_project session fuel q (enter q m)) as [res w'|e w'|w'].
  - rewrite IH by done. simpl. by rewrite lookup_insert_ne.
  - rewrite IH by done. simpl. by rewrite lookup_insert_ne.
  - simpl. by rewrite lookup_insert_ne.
Qed.

(** X19: [main] touches the files of the three projects of its list and no
    others, however it ends. *)
Theorem main_touches_only_its_projects session fuel m p :
  p ∉ PROJECTS ->
  disks (machine_of (main session fuel m)) !! p = disks m !! p.
Proof. apply main_loop_touches_listed_projects. Qed.

Lemma main_touches_only_its_projects_witness :
  ("ZOOKEEPER" ∉ PROJECTS) /\
  (disks (machine_of (main (jira three_issues 2) 3 fresh_machine)) !! "ZOOKEEPER" = None).
Proof.
  assert ("ZOOKEEPER" ∉ PROJECTS) as H by (unfold PROJECTS; set_solver).
  split; [exact H|].
  exact (main_touches_only_its_projects (jira three_issues 2) 3 fresh_machine
           "ZOOKEEPER" H).
Defined.
